(** * simplestore: the guarded store of [src/index.js]

    A shallow embedding of the store factory [Store], its seed
    normalisation ([setProp], [validate]), the property interception of the
    returned handle ([handler.get], [handler.set] behind a frozen [Proxy])
    and the two dispatchers ([commit], [action]).

    JavaScript values are structural: an object is the list of its own
    enumerable string-keyed properties, in enumeration order ([for ... in],
    [Object.keys], [Object.assign] all follow that order).  Objects are
    plain: their prototype is [Object.prototype], which is a parameter of
    the model.  Function values are names; what a function does when it is
    called is given by a code table, also a parameter.

    Scope: property names are strings other than array indices (those are
    enumerated first, in numeric order) and other than [__proto__] (an
    assignment to it, by a mutation or by [Object.assign], goes to the setter
    of [Object.prototype] and makes no own property); every property is an
    enumerable data property; a value held in the data is never one of the root's
    three group objects themselves; a function is determined by its
    arguments and acts on the state it is handed. *)

From Stdlib Require Import String List ZArith Bool.
Import ListNotations.
Local Open Scope string_scope.
Set Warnings "-register-all".

(** ** Values *)

Inductive value : Type :=
| VUndefined
| VNull
| VBool (b : bool)
| VNum (n : Z)
| VNaN
| VStr (s : string)
| VObj (props : list (string * value))
| VFun (f : string).

Definition obj : Type := list (string * value).

(** What a [throw] carries: [new Error(msg)], a [TypeError] raised by the
    language itself, or any value thrown by user code. *)
Inductive exn : Type :=
| Error (msg : string)
| TypeError (msg : string)
| Thrown (v : value).

Inductive completion (A : Type) : Type :=
| Normal (a : A)
| Throw (e : exn).
Arguments Normal {A} a.
Arguments Throw {A} e.

(** [typeof v] *)
Definition typeof (v : value) : string :=
  match v with
  | VUndefined => "undefined"
  | VNull => "object"
  | VBool _ => "boolean"
  | VNum _ | VNaN => "number"
  | VStr _ => "string"
  | VObj _ => "object"
  | VFun _ => "function"
  end.

(** [ToBoolean v], the test of [if (v)] and the operand of [!v]. *)
Definition truthy (v : value) : bool :=
  match v with
  | VUndefined | VNull | VNaN => false
  | VBool b => b
  | VNum n => negb (n =? 0)%Z
  | VStr s => negb (s =? "")
  | VObj _ | VFun _ => true
  end.

(** ** Objects *)

Fixpoint own (o : obj) (k : string) : option value :=
  match o with
  | [] => None
  | (k', v) :: rest => if k' =? k then Some v else own rest k
  end.

Definition keys (o : obj) : list string := map fst o.

(** [o[k] = v] on a plain object, for [k] other than [__proto__]: an
    existing property keeps its place, a new one is enumerated last. *)
Fixpoint set_prop (o : obj) (k : string) (v : value) : obj :=
  match o with
  | [] => [(k, v)]
  | (k', v') :: rest =>
      if k' =? k then (k, v) :: rest else (k', v') :: set_prop rest k v
  end.

(** [arr.includes(x)] on an array of strings. *)
Definition includes (arr : list string) (x : string) : bool :=
  existsb (fun y => y =? x) arr.

Definition RESERVEDWORDS : list string := ["data"; "action"; "commit"].

(** [for (let key in o) { if (RESERVEDWORDS.includes(key)) throw ... }]:
    the key the loop throws on, if it throws. *)
Fixpoint reserved_key (o : obj) : option string :=
  match o with
  | [] => None
  | (k, _) :: rest => if includes RESERVEDWORDS k then Some k else reserved_key rest
  end.

(** [/(actions|mutations)/.test(desc)]: an unanchored search. *)
Fixpoint starts_with (p s : string) : bool :=
  match p, s with
  | EmptyString, _ => true
  | String a p', String b s' => if Ascii.eqb a b then starts_with p' s' else false
  | String _ _, EmptyString => false
  end.

Fixpoint contains (p s : string) : bool :=
  starts_with p s ||
  match s with
  | EmptyString => false
  | String _ s' => contains p s'
  end.

Definition actions_or_mutations (desc : string) : bool :=
  contains "actions" desc || contains "mutations" desc.

(** ** The root record, user functions and actions *)

(** The target of the proxy: [{ data, mutations, actions }]. *)
Record store : Type := mkStore {
  data : obj;
  mutations : obj;
  actions : obj
}.

Definition set_data (st : store) (d : obj) : store :=
  mkStore d (mutations st) (actions st).

(** The body of a function called as [f(commit, value)]: what it does with
    the commit capability it was handed.  [Commit name arg k] calls the
    capability and continues with its completion (a body that does not
    catch continues a [Throw e] with [Raise e]); [Await k] is a suspension
    point ([await delay(n)]), after which [k] runs. *)
Inductive prog : Type :=
| Return (v : value)
| Raise (e : exn)
| Commit (name : string) (arg : value) (k : completion value -> prog)
| Await (k : prog).

(** [commit(name, arg); rest], exceptions propagating as they do in
    JavaScript. *)
Definition commit_then (name : string) (arg : value) (rest : value -> prog) : prog :=
  Commit name arg (fun c => match c with Normal v => rest v | Throw e => Raise e end).

(** The denotation of a function value, under the three calls the store
    makes: [f()] on a seed producer, [f(state, value)] on a mutation (the
    function may change [state] in place, so the new state is returned with
    the completion) and [f(commit, value)] on an action.  [is_async] tells
    an [async] function, whose call always returns a promise. *)
Record fn : Type := mkFn {
  call0 : completion value;
  call_state : obj -> value -> obj * completion value;
  is_async : bool;
  call_commit : value -> prog
}.

(** What a call of an action gives back to the caller: a completed call, or
    a promise of the rest of the body. *)
Inductive outcome : Type :=
| Settled (c : completion value)
| Promise (rest : prog).

(** The result of a property read on the handle: a value, or one of the two
    bound dispatchers [commit.bind(target)] and [action.bind(target)]. *)
Inductive got : Type :=
| GotValue (v : value)
| GotCommit
| GotAction.

Section Semantics.

(** The code of the functions, by name. *)
Variable code : string -> fn.

(** The own properties of [Object.prototype], which every plain object
    inherits. *)
Variable object_prototype : obj.

(** [o[k]] *)
Definition get_prop (o : obj) (k : string) : value :=
  match own o k with
  | Some v => v
  | None =>
      match own object_prototype k with
      | Some v => v
      | None => VUndefined
      end
  end.

(** [v.k] on a value that passed [typeof v === 'object'] and is not null. *)
Definition member (v : value) (k : string) : value :=
  match v with
  | VObj o => get_prop o k
  | _ => VUndefined
  end.

(** *** validate (src/index.js, 287-308) *)

Fixpoint disallowed_type (types : list string) (o : obj) (ks : list string)
  : option string :=
  match ks with
  | [] => None
  | key :: rest =>
      let t := typeof (get_prop o key) in
      if includes types t then disallowed_type types o rest else Some t
  end.

Definition own_props (v : value) : obj :=
  match v with
  | VObj o => o
  | _ => []
  end.

Definition validate (o : value) (types : list string) (desc : string)
  : completion value :=
  if negb (typeof o =? "object") then
    Throw (Error ("ValidationError: " ++ desc ++ " doesn't resolve to an object"))
  else
    match reserved_key (own_props o) with
    | Some key => Throw (Error ("DontTouchMyReservedwords: " ++ key))
    | None =>
        if match types with t :: _ => t =? "*" | [] => false end then Normal o
        else
          match disallowed_type types (own_props o) (keys (own_props o)) with
          | Some t =>
              Throw (Error ("DisallowedTypeError: " ++ desc ++ " can't accept " ++ t))
          | None => Normal o
          end
    end.

(** *** setProp (src/index.js, 248-268) *)

(** [value()] where [typeof value === 'function']. *)
Definition call_producer (v : value) : completion value :=
  match v with
  | VFun f => call0 (code f)
  | _ => Throw (TypeError "value is not a function")
  end.

(** The three [if]s of [setProp]: the value of [ret] handed to
    [validate]. *)
Definition candidate (v : value) : completion value :=
  let ret := if negb (truthy v) then VObj [] else VUndefined in
  match (if typeof v =? "function" then call_producer v else Normal ret) with
  | Throw e => Throw e
  | Normal ret => Normal (if negb (truthy ret) then v else ret)
  end.

(** [Object.assign({}, v)], for [v] without an own key [__proto__] (which
    [Object.assign] would hand to the setter instead of copying). *)
Definition assign_empty (v : value) : obj := own_props v.

Definition setProp (v : value) (desc : string) : completion obj :=
  match candidate v with
  | Throw e => Throw e
  | Normal ret =>
      let types := if actions_or_mutations desc then ["function"] else ["*"] in
      match validate ret types desc with
      | Throw e => Throw e
      | Normal o => Normal (assign_empty o)
      end
  end.

(** *** props (src/lib/utils.js, 58-60) *)
Definition props (o : obj) : bool := (1 <=? length (keys o))%nat.

(** *** Store (src/index.js, 214-235): the target of the returned handle *)
Definition Store (seed : value) : completion store :=
  if negb (truthy seed) || negb (typeof seed =? "object") then
    Throw (Error "SeedRequiredError: Must supply object to `new Store()`")
  else
    match setProp (member seed "data") "data" with
    | Throw e => Throw e
    | Normal d =>
        match setProp (member seed "mutations") "mutations" with
        | Throw e => Throw e
        | Normal m =>
            match setProp (member seed "actions") "actions" with
            | Throw e => Throw e
            | Normal a =>
                if negb (props d) && negb (props m) then
                  Throw (Error "NoPointError: Must have at least 1 data or mutation prop")
                else Normal (mkStore d m a)
            end
        end
    end.

(** *** commit (src/index.js, 319-330) *)

(** [m(this.data, value)] *)
Definition call_mutation (m : value) (d : obj) (v : value) : obj * completion value :=
  match m with
  | VFun f => call_state (code f) d v
  | _ => (d, Throw (TypeError "this.mutations[name] is not a function"))
  end.

Definition commit (this : store) (name : string) (v : value)
  : store * completion value :=
  if truthy (get_prop (mutations this) name) then
    let '(d, c) := call_mutation (get_prop (mutations this) name) (data this) v in
    let this' := set_data this d in
    match c with
    | Throw e => (this', Throw e)
    | Normal ret =>
        match reserved_key (data this') with
        | Some key => (this', Throw (Error ("DontTouchMyReservedwords: " ++ key)))
        | None => (this', Normal ret)
        end
    end
  else
    (this, Throw (Error ("NoSuchMutationError: " ++ name ++ " is not a registered mutation."))).

(** *** action (src/index.js, 341-346) *)

(** Runs a body up to its first suspension point, every [Commit] going to
    [commit] bound to [this]. *)
Fixpoint start (p : prog) (this : store) : store * prog :=
  match p with
  | Commit name arg k =>
      let r := commit this name arg in start (k (snd r)) (fst r)
  | _ => (this, p)
  end.

(** What the call returns: an [async] function returns the promise of the
    rest of its body; another function returns or throws when its body
    has ended, and returns a promise of the rest when it has not. *)
Definition settle (async : bool) (rest : prog) : outcome :=
  if async then Promise rest
  else
    match rest with
    | Return v => Settled (Normal v)
    | Raise e => Settled (Throw e)
    | _ => Promise rest
    end.

(** [a(commit.bind(this), value)] *)
Definition call_action (a : value) (this : store) (v : value) : store * outcome :=
  match a with
  | VFun f =>
      let r := start (call_commit (code f) v) this in
      (fst r, settle (is_async (code f)) (snd r))
  | _ => (this, Settled (Throw (TypeError "this.actions[name] is not a function")))
  end.

Definition action (this : store) (name : string) (v : value) : store * outcome :=
  if truthy (get_prop (actions this) name) then
    call_action (get_prop (actions this) name) this v
  else
    (this, Settled (Throw (Error ("NoSuchActionError: " ++ name ++ " is not a registered action.")))).

(** *** The handle: [Object.freeze(new Proxy(target, handler))] *)

(** [handler.get] (src/index.js, 177-193) *)
Definition handler_get (target : store) (prop : string) : completion got :=
  if prop =? "commit" then Normal GotCommit
  else if prop =? "action" then Normal GotAction
  else if prop =? "data" then
    Throw (Error "NoDirectAccessForYou: you must use a mutation.")
  else if truthy (get_prop (data target) prop) then
    Normal (GotValue (get_prop (data target) prop))
  else Normal (GotValue VUndefined).

(** [handler.set] (src/index.js, 194-196) *)
Definition handler_set (target : store) (prop : string) (v : value) : bool := true.

(** The own keys of the proxy's target.  [Object.freeze(proxy)] is
    SetIntegrityLevel(proxy, frozen): it calls the proxy's
    [[PreventExtensions]] and, for each own key, its [[DefineOwnProperty]]
    with [{configurable: false, writable: false}].  The handler has no
    [preventExtensions] and no [defineProperty] trap, so both go to the
    target: from then on these three are non-writable, non-configurable
    data properties of the target, each holding one of the root's group
    objects. *)
Definition target_keys : list string := ["data"; "mutations"; "actions"].

(** The proxy's [[Get]] (ECMAScript, Proxy Object Internal Methods and
    Internal Slots, [[Get]], steps 7 to 10): the trap runs; then, when the
    target has [prop] as a non-writable, non-configurable own data
    property, the trap's result must be that property's value (SameValue,
    which is identity on objects), or [[Get]] throws a TypeError.  What the
    trap returns is undefined or a value held in [root.data]; values of
    this model do not alias the root's group objects, so on a target key
    the comparison fails.  The text of a TypeError is the engine's. *)
Definition proxy_get (target : store) (prop : string) : completion got :=
  match handler_get target prop with
  | Throw e => Throw e
  | Normal r =>
      if includes target_keys prop then
        Throw (TypeError "'get' on proxy: property is a read-only and non-configurable data property on the proxy target but the proxy did not return its actual value")
      else Normal r
  end.

(** The proxy's [[Set]]: the trap runs; a falsish result is a TypeError in
    strict code; after a truish one the same invariant is checked against
    the assigned value.  The target is returned with the completion: no
    path writes to it. *)
Definition proxy_set (target : store) (prop : string) (v : value)
  : store * completion unit :=
  if handler_set target prop v then
    if includes target_keys prop then
      (target, Throw (TypeError "'set' on proxy: trap returned truish for property which exists in the proxy target as a non-configurable and non-writable data property with a different value"))
    else (target, Normal tt)
  else (target, Throw (TypeError "'set' on proxy: trap returned falsish for property")).

(** [handle.commit(name, value)]: a read of [commit], then the call. *)
Definition handle_commit (target : store) (name : string) (v : value)
  : store * completion value :=
  match proxy_get target "commit" with
  | Normal GotCommit => commit target name v
  | Normal _ => (target, Throw (TypeError "handle.commit is not a function"))
  | Throw e => (target, Throw e)
  end.

(** [handle.action(name, value)] *)
Definition handle_action (target : store) (name : string) (v : value)
  : store * outcome :=
  match proxy_get target "action" with
  | Normal GotAction => action target name v
  | Normal _ => (target, Settled (Throw (TypeError "handle.action is not a function")))
  | Throw e => (target, Settled (Throw e))
  end.

(** *** Words used by the statements *)

Definition groups : list string := ["data"; "mutations"; "actions"].

(** [setProp] succeeds on the seed's group [g]. *)
Definition normalizes (seed : value) (g : string) : Prop :=
  exists o, setProp (member seed g) g = Normal o.

(** Every group that [Store] normalizes before [g] succeeds. *)
Definition earlier_groups_normalize (seed : value) (g : string) : Prop :=
  if g =? "data" then True
  else if g =? "mutations" then normalizes seed "data"
  else normalizes seed "data" /\ normalizes seed "mutations".

(** [Store] gets past its first test. *)
Definition is_seed (seed : value) : Prop :=
  truthy seed = true /\ typeof seed = "object".

(** Runs the rest of a body to its end, through every later suspension. *)
Fixpoint finish (p : prog) (this : store) : store * completion value :=
  match p with
  | Return v => (this, Normal v)
  | Raise e => (this, Throw e)
  | Commit name arg k =>
      let r := commit this name arg in finish (k (snd r)) (fst r)
  | Await k => finish k this
  end.

(** [await o], with nothing else running on the store meanwhile. *)
Definition await (o : outcome) (this : store) : store * completion value :=
  match o with
  | Settled c => (this, c)
  | Promise rest => finish rest this
  end.

End Semantics.

(** ** The functions and seeds of the scenarios *)

(** [(s, v) => { s.a = v; }] *)
Definition fn_set : fn :=
  mkFn (Throw (TypeError "Cannot set properties of undefined (setting 'a')"))
       (fun s v => (set_prop s "a" v, Normal VUndefined))
       false
       (fun _ => Return VUndefined).

(** [(store, val) => { store.x = val; }] *)
Definition fn_setX : fn :=
  mkFn (Throw (TypeError "Cannot set properties of undefined (setting 'x')"))
       (fun s v => (set_prop s "x" v, Normal VUndefined))
       false
       (fun _ => Return VUndefined).

(** [async (commit, v) => { await delay(1); commit('setX', v); }] *)
Definition fn_go : fn :=
  mkFn (Normal (VObj []))
       (fun s _ => (s, Normal (VObj [])))
       true
       (fun v => Await (commit_then "setX" v (fun _ => Return VUndefined))).

(** [(s, v) => { s.data = v; return 'done'; }] *)
Definition fn_smuggle : fn :=
  mkFn (Throw (TypeError "Cannot set properties of undefined (setting 'data')"))
       (fun s v => (set_prop s "data" v, Normal (VStr "done")))
       false
       (fun _ => Return (VStr "done")).

(** [Object.prototype.toString], called on a plain object (as a method of
    the mutations or of the actions object), and with no receiver. *)
Definition fn_toString : fn :=
  mkFn (Normal (VStr "[object Undefined]"))
       (fun s _ => (s, Normal (VStr "[object Object]")))
       false
       (fun _ => Return (VStr "[object Object]")).

(** [() => {}] *)
Definition fn_noop : fn :=
  mkFn (Normal VUndefined)
       (fun s _ => (s, Normal VUndefined))
       false
       (fun _ => Return VUndefined).

Definition scenario_code (f : string) : fn :=
  if f =? "set" then fn_set
  else if f =? "setX" then fn_setX
  else if f =? "go" then fn_go
  else if f =? "smuggle" then fn_smuggle
  else if f =? "Object.prototype.toString" then fn_toString
  else fn_noop.

(** The member of [Object.prototype] the scenarios call. *)
Definition scenario_prototype : obj :=
  [("toString", VFun "Object.prototype.toString")].

(** [{ data: { a: 1 }, mutations: { set: (s, v) => { s.a = v; } } }] *)
Definition seed_roundtrip : value :=
  VObj [("data", VObj [("a", VNum 1)]);
        ("mutations", VObj [("set", VFun "set")])].

Definition store_roundtrip : store :=
  mkStore [("a", VNum 1)] [("set", VFun "set")] [].

(** [{ data: { x: null }, mutations: { setX }, actions: { go } }] *)
Definition seed_async : value :=
  VObj [("data", VObj [("x", VNull)]);
        ("mutations", VObj [("setX", VFun "setX")]);
        ("actions", VObj [("go", VFun "go")])].

Definition store_async : store :=
  mkStore [("x", VNull)] [("setX", VFun "setX")] [("go", VFun "go")].

(** [{ data: { a: 1 } }] *)
Definition seed_a1 : value := VObj [("data", VObj [("a", VNum 1)])].

Definition store_a1 : store := mkStore [("a", VNum 1)] [] [].

(** [{ data: { a: 1 }, mutations: { smuggle: (s, v) => { s.data = v; return 'done'; } } }] *)
Definition seed_smuggle : value :=
  VObj [("data", VObj [("a", VNum 1)]);
        ("mutations", VObj [("smuggle", VFun "smuggle")])].

Definition store_smuggle : store :=
  mkStore [("a", VNum 1)] [("smuggle", VFun "smuggle")] [].

(** [{ data: { actions: 'pending' } }] *)
Definition seed_actions_key : value :=
  VObj [("data", VObj [("actions", VStr "pending")])].

Definition store_actions_key : store :=
  mkStore [("actions", VStr "pending")] [] [].

(** [{ data: { commit: 1, data: 2 } }] *)
Definition seed_two_reserved : value :=
  VObj [("data", VObj [("commit", VNum 1); ("data", VNum 2)])].

(** [{ data: 0, mutations: { set: (s, v) => { s.a = v; } } }] *)
Definition seed_zero_data : value :=
  VObj [("data", VNum 0); ("mutations", VObj [("set", VFun "set")])].

(** [{ data: 5 }] *)
Definition seed_number_data : value := VObj [("data", VNum 5)].

(** [{ data: 5, mutations: { commit: (s, v) => { s.a = v; } } }] *)
Definition seed_late_reserved : value :=
  VObj [("data", VNum 5); ("mutations", VObj [("commit", VFun "set")])].

(** [{ actions: { go } }] *)
Definition seed_only_actions : value :=
  VObj [("actions", VObj [("go", VFun "go")])].

(** [{ mutations: { m: 3 } }] *)
Definition seed_number_mutation : value :=
  VObj [("mutations", VObj [("m", VNum 3)])].

Definition store_number_mutation : store := mkStore [] [("m", VNum 3)] [].

(** [(s, v) => { s.data = v; throw v; }] *)
Definition fn_fail : fn :=
  mkFn (Throw (TypeError "Cannot set properties of undefined (setting 'data')"))
       (fun s v => (set_prop s "data" v, Throw (Thrown v)))
       false
       (fun v => Raise (Thrown v)).

Definition failing_code (f : string) : fn :=
  if f =? "fail" then fn_fail else scenario_code f.

Definition store_fail : store :=
  mkStore [("a", VNum 1)] [("fail", VFun "fail")] [].

(** [{ data: { a: 1 }, mutations: { fail: (s, v) => { s.data = v; throw v; } } }] *)
Definition seed_fail : value :=
  VObj [("data", VObj [("a", VNum 1)]);
        ("mutations", VObj [("fail", VFun "fail")])].

(** ** src/lib/utils.js *)

Module Utils.

Section WithCode.

Variable code : string -> fn.

(** valueOrFunction (src/lib/utils.js, 22-28).  The default [overide =
    false] replaces an argument that is [undefined]. *)
Definition valueOrFunction (val overide : value) : completion value :=
  let overide := match overide with VUndefined => VBool false | _ => overide end in
  if (typeof val =? "function") && negb (truthy overide) then call_producer code val
  else Normal val.

End WithCode.

(** props (src/lib/utils.js, 58-60), on any value: [&&] stops at a value
    that is not [typeof] object, and [Object.keys(null)] throws. *)
Definition props (obj : value) : completion bool :=
  if typeof obj =? "object" then
    match obj with
    | VNull => Throw (TypeError "Cannot convert undefined or null to object")
    | _ => Normal (1 <=? length (keys (own_props obj)))%nat
    end
  else Normal false.

End Utils.

(** ** The earlier revision of the store (src/index.js, 1-163)

    [handler] and [Store] read as in the later revision; [setProp] and
    [validate] take no list of types, and the dispatchers test
    [typeof ... === 'function'] and scan nothing. *)

Module Earlier.

Section Semantics.

Variable code : string -> fn.
Variable object_prototype : obj.

(** validate (src/index.js, 116-127) *)
Definition validate (o : value) (desc : string) : completion value :=
  if negb (typeof o =? "object") then
    Throw (Error ("ValidationError: " ++ desc ++ " doesn't resolve to an object"))
  else
    match reserved_key (own_props o) with
    | Some key => Throw (Error ("DontTouchMyReservedwords: " ++ key))
    | None => Normal o
    end.

(** setProp (src/index.js, 85-101) *)
Definition setProp (v : value) (desc : string) : completion obj :=
  match candidate code v with
  | Throw e => Throw e
  | Normal ret =>
      match validate ret desc with
      | Throw e => Throw e
      | Normal o => Normal (assign_empty o)
      end
  end.

(** Store (src/index.js, 51-72) *)
Definition Store (seed : value) : completion store :=
  if negb (truthy seed) || negb (typeof seed =? "object") then
    Throw (Error "SeedRequiredError: Must supply object to `new Store()`")
  else
    match setProp (member object_prototype seed "data") "data" with
    | Throw e => Throw e
    | Normal d =>
        match setProp (member object_prototype seed "mutations") "mutations" with
        | Throw e => Throw e
        | Normal m =>
            match setProp (member object_prototype seed "actions") "actions" with
            | Throw e => Throw e
            | Normal a =>
                if negb (props d) && negb (props m) then
                  Throw (Error "NoPointError: Must have at least 1 data or mutation prop")
                else Normal (mkStore d m a)
            end
        end
    end.

(** commit (src/index.js, 138-145) *)
Definition commit (this : store) (name : string) (v : value)
  : store * completion value :=
  if truthy (get_prop object_prototype (mutations this) name)
     && (typeof (get_prop object_prototype (mutations this) name) =? "function")
  then
    let '(d, c) :=
      call_mutation code (get_prop object_prototype (mutations this) name)
                    (data this) v in
    (set_data this d, c)
  else
    (this, Throw (Error ("NoSuchMutationError: " ++ name ++ " is not a registered mutation."))).

(** action (src/index.js, 156-163): the capability handed to the action
    is this revision's [commit]. *)
Fixpoint start (p : prog) (this : store) : store * prog :=
  match p with
  | Commit name arg k =>
      let r := commit this name arg in start (k (snd r)) (fst r)
  | _ => (this, p)
  end.

Definition call_action (a : value) (this : store) (v : value) : store * outcome :=
  match a with
  | VFun f =>
      let r := start (call_commit (code f) v) this in
      (fst r, settle (is_async (code f)) (snd r))
  | _ => (this, Settled (Throw (TypeError "this.actions[name] is not a function")))
  end.

Definition action (this : store) (name : string) (v : value) : store * outcome :=
  if truthy (get_prop object_prototype (actions this) name)
     && (typeof (get_prop object_prototype (actions this) name) =? "function")
  then call_action (get_prop object_prototype (actions this) name) this v
  else
    (this, Settled (Throw (Error ("NoSuchActionError: " ++ name ++ " is not a registered action.")))).

End Semantics.

End Earlier.

(** ** Properties *)

Lemma reserved_key_sound (o : obj) (key : string) :
  reserved_key o = Some key ->
  In key (keys o) /\ includes RESERVEDWORDS key = true.
Proof.
  induction o as [|[k v] rest IH]; cbn [reserved_key keys map fst In];
    [discriminate|].
  destruct (includes RESERVEDWORDS k) eqn:Hk.
  - intros [= <-]. split; [now left | exact Hk].
  - intros H. destruct (IH H) as [Hin Hr]. split; [now right | exact Hr].
Qed.

Lemma reserved_key_complete (o : obj) (k : string) :
  In k (keys o) -> includes RESERVEDWORDS k = true ->
  exists key, reserved_key o = Some key.
Proof.
  induction o as [|[k' v] rest IH]; cbn [reserved_key keys map fst In];
    [tauto|].
  intros [<- | Hin] Hk.
  - rewrite Hk. now exists k'.
  - destruct (includes RESERVEDWORDS k'); [now exists k' | now apply IH].
Qed.

Lemma reserved_key_none (o : obj) :
  reserved_key o = None ->
  forall k, In k (keys o) -> includes RESERVEDWORDS k = false.
Proof.
  intros Hnone k Hin.
  destruct (includes RESERVEDWORDS k) eqn:Hk; [|reflexivity].
  destruct (reserved_key_complete o k Hin Hk) as [key Hkey]. congruence.
Qed.

Section Properties.

Variable code : string -> fn.
Variable proto : obj.

Lemma get_prop_own (o : obj) (k : string) (v : value) :
  own o k = Some v -> get_prop proto o k = v.
Proof. unfold get_prop. now intros ->. Qed.

Lemma handle_commit_is_commit (st : store) (name : string) (v : value) :
  handle_commit code proto st name v = commit code proto st name v.
Proof. reflexivity. Qed.

Lemma handle_action_is_action (st : store) (name : string) (v : value) :
  handle_action code proto st name v = action code proto st name v.
Proof. reflexivity. Qed.

(** What [commit] does once the lookup has found something truthy. *)
Lemma commit_runs (st : store) (name : string) (v : value) (d : obj)
      (c : completion value) :
  truthy (get_prop proto (mutations st) name) = true ->
  call_mutation code (get_prop proto (mutations st) name) (data st) v = (d, c) ->
  commit code proto st name v =
    (set_data st d,
     match c with
     | Throw e => Throw e
     | Normal ret =>
         match reserved_key d with
         | Some key => Throw (Error ("DontTouchMyReservedwords: " ++ key))
         | None => Normal ret
         end
     end).
Proof.
  intros Ht Hc. unfold commit. rewrite Ht, Hc. simpl.
  destruct c as [ret|e]; [|reflexivity].
  now destruct (reserved_key d).
Qed.

(** A registered mutation is found by the lookup and is the function
    that [commit] calls. *)
Lemma registered_mutation (st : store) (name f : string) (v : value) :
  own (mutations st) name = Some (VFun f) ->
  truthy (get_prop proto (mutations st) name) = true /\
  call_mutation code (get_prop proto (mutations st) name) (data st) v =
    call_state (code f) (data st) v.
Proof.
  intros Hown. rewrite (get_prop_own _ _ _ Hown). now split.
Qed.

End Properties.

Lemma reserved_key_absent (o : obj) :
  (forall k, In k (keys o) -> includes RESERVEDWORDS k = false) ->
  reserved_key o = None.
Proof.
  intros Hall. destruct (reserved_key o) as [key|] eqn:Hkey; [|reflexivity].
  destruct (reserved_key_sound o key Hkey) as [Hin Hr].
  rewrite (Hall key Hin) in Hr. discriminate.
Qed.

(** A read of a key that is neither intercepted by the handler nor an own
    key of the proxy's target. *)
Lemma read_other_key (proto : obj) (st : store) (k : string) :
  includes ["commit"; "action"; "data"; "mutations"; "actions"] k = false ->
  proxy_get proto st k =
    Normal (GotValue (if truthy (get_prop proto (data st) k)
                      then get_prop proto (data st) k
                      else VUndefined)).
Proof.
  unfold includes. cbn [existsb]. rewrite !orb_false_r, !orb_false_iff.
  intros (Hc & Ha & Hd & Hm & Hs).
  unfold proxy_get, handler_get, target_keys, includes. cbn [existsb].
  rewrite (String.eqb_sym k "commit"), Hc, (String.eqb_sym k "action"), Ha,
    (String.eqb_sym k "data"), Hd, Hm, Hs.
  now destruct (truthy (get_prop proto (data st) k)).
Qed.

(** C1, as amended: [handle.commit(name, value)] on a registered mutation
    calls it as [mutation(root.data, value)], the state it leaves becoming
    the store's data, and returns the mutation's return value, whenever the
    mutation returns and leaves no reserved word among the keys of
    [root.data]; for the store built from
    [{data:{a:1}, mutations:{set:(s,v)=>{s.a=v;}}}], after
    [handle.commit('set', 5)] a read of [handle.a] returns 5. *)
Theorem commit_returns_mutation_result :
  (forall code proto st name f v d ret,
      own (mutations st) name = Some (VFun f) ->
      call_state (code f) (data st) v = (d, Normal ret) ->
      (forall k, In k (keys d) -> includes RESERVEDWORDS k = false) ->
      handle_commit code proto st name v = (set_data st d, Normal ret))
  /\ Store scenario_code scenario_prototype seed_roundtrip = Normal store_roundtrip
  /\ handle_commit scenario_code scenario_prototype store_roundtrip "set" (VNum 5)
     = (set_data store_roundtrip [("a", VNum 5)], Normal VUndefined)
  /\ proxy_get scenario_prototype (set_data store_roundtrip [("a", VNum 5)]) "a"
     = Normal (GotValue (VNum 5)).
Proof.
  split; [|repeat split].
  intros code proto st name f v d ret Hown Hcall Hfree.
  destruct (registered_mutation code proto st name f v Hown) as [Ht Hm].
  rewrite handle_commit_is_commit.
  rewrite (commit_runs code proto st name v d (Normal ret) Ht);
    [|now rewrite Hm].
  now rewrite (reserved_key_absent d Hfree).
Qed.

Lemma commit_returns_mutation_result_witness :
  own (mutations store_roundtrip) "set" = Some (VFun "set")
  /\ call_state (scenario_code "set") (data store_roundtrip) (VNum 5)
     = ([("a", VNum 5)], Normal VUndefined)
  /\ (forall k, In k (keys [("a", VNum 5)]) -> includes RESERVEDWORDS k = false)
  /\ handle_commit scenario_code scenario_prototype store_roundtrip "set" (VNum 5)
     = (set_data store_roundtrip [("a", VNum 5)], Normal VUndefined).
Proof.
  assert (Hfree : forall k, In k (keys [("a", VNum 5)]) ->
                            includes RESERVEDWORDS k = false).
  { intros k [<- | []]. reflexivity. }
  split; [reflexivity|]. split; [reflexivity|]. split; [exact Hfree|].
  apply (proj1 commit_returns_mutation_result
               scenario_code scenario_prototype store_roundtrip "set" "set"
               (VNum 5) [("a", VNum 5)] VUndefined);
    [reflexivity | reflexivity | exact Hfree].
Defined.

(** C1, as stated, fails: the store built from
    [{data:{a:1}, mutations:{smuggle:(s,v)=>{s.data=v; return 'done';}}}]
    registers [smuggle], the mutation returns ['done'], and
    [handle.commit('smuggle', 1)] does not return it. *)
Lemma commit_result_lost_on_reserved_key :
  Store scenario_code scenario_prototype seed_smuggle = Normal store_smuggle
  /\ own (mutations store_smuggle) "smuggle" = Some (VFun "smuggle")
  /\ snd (call_state (scenario_code "smuggle") (data store_smuggle) (VNum 1))
     = Normal (VStr "done")
  /\ snd (handle_commit scenario_code scenario_prototype store_smuggle
                        "smuggle" (VNum 1))
     <> Normal (VStr "done").
Proof. repeat split. discriminate. Qed.

(** C4, as amended: when the mutation called by [commit(name, value)] has
    returned, the keys of [root.data] are scanned, and if one of them is a reserved word
    the call fails with [DontTouchMyReservedwords: <key>], the key being the
    first reserved one in enumeration order; so a [commit] that returns
    leaves no reserved word among the keys of [root.data]. *)
Theorem commit_rescans_reserved_words :
  (forall code proto st name v d ret k,
      truthy (get_prop proto (mutations st) name) = true ->
      call_mutation code (get_prop proto (mutations st) name) (data st) v
      = (d, Normal ret) ->
      In k (keys d) -> includes RESERVEDWORDS k = true ->
      exists key,
        reserved_key d = Some key
        /\ In key (keys d) /\ includes RESERVEDWORDS key = true
        /\ handle_commit code proto st name v
           = (set_data st d, Throw (Error ("DontTouchMyReservedwords: " ++ key))))
  /\ (forall code proto st name v st' ret,
         handle_commit code proto st name v = (st', Normal ret) ->
         forall k, In k (keys (data st')) -> includes RESERVEDWORDS k = false).
Proof.
  split.
  - intros code proto st name v d ret k Ht Hcall Hin Hk.
    destruct (reserved_key_complete d k Hin Hk) as [key Hkey].
    destruct (reserved_key_sound d key Hkey) as [Hin' Hk'].
    exists key. repeat split; try assumption.
    rewrite handle_commit_is_commit.
    rewrite (commit_runs code proto st name v d (Normal ret) Ht Hcall).
    now rewrite Hkey.
  - intros code proto st name v st' ret. rewrite handle_commit_is_commit.
    unfold commit.
    destruct (truthy (get_prop proto (mutations st) name)); [|discriminate].
    destruct (call_mutation code (get_prop proto (mutations st) name) (data st) v)
      as [d [r|e]]; [|discriminate].
    destruct (reserved_key (data (set_data st d))) eqn:Hkey; [discriminate|].
    intros [= <- _]. now apply reserved_key_none.
Qed.

Lemma commit_rescans_reserved_words_witness :
  (truthy (get_prop scenario_prototype (mutations store_smuggle) "smuggle") = true
   /\ In "data" (keys [("a", VNum 1); ("data", VNum 1)])
   /\ includes RESERVEDWORDS "data" = true
   /\ exists key,
       reserved_key [("a", VNum 1); ("data", VNum 1)] = Some key
       /\ In key (keys [("a", VNum 1); ("data", VNum 1)])
       /\ includes RESERVEDWORDS key = true
       /\ handle_commit scenario_code scenario_prototype store_smuggle
                        "smuggle" (VNum 1)
          = (set_data store_smuggle [("a", VNum 1); ("data", VNum 1)],
             Throw (Error ("DontTouchMyReservedwords: " ++ key))))
  /\ (forall k, In k (keys (data (set_data store_roundtrip [("a", VNum 5)]))) ->
                includes RESERVEDWORDS k = false).
Proof.
  split.
  - split; [reflexivity|]. split; [right; left; reflexivity|].
    split; [reflexivity|].
    apply (proj1 commit_rescans_reserved_words
                 scenario_code scenario_prototype store_smuggle "smuggle"
                 (VNum 1) [("a", VNum 1); ("data", VNum 1)] (VStr "done") "data");
      [reflexivity | reflexivity | right; left; reflexivity | reflexivity].
  - apply (proj2 commit_rescans_reserved_words
                 scenario_code scenario_prototype store_roundtrip "set" (VNum 5)
                 (set_data store_roundtrip [("a", VNum 5)]) VUndefined).
    reflexivity.
Defined.

(** C4, as stated, fails.  In the store built from
    [{data:{a:1}, mutations:{fail:(s,v)=>{s.data=v; throw v;}}}] the
    mutation of [handle.commit('fail', 7)] runs and leaves the reserved
    word [data] among the keys of [root.data]; it throws, so no scan is
    made: the call fails with the mutation's own exception and with no
    [DontTouchMyReservedwords]. *)
Lemma commit_skips_scan_when_mutation_throws :
  Store failing_code scenario_prototype seed_fail = Normal store_fail
  /\ own (mutations store_fail) "fail" = Some (VFun "fail")
  /\ In "data" (keys (data (fst (handle_commit failing_code scenario_prototype
                                              store_fail "fail" (VNum 7)))))
  /\ includes RESERVEDWORDS "data" = true
  /\ forall key,
      snd (handle_commit failing_code scenario_prototype store_fail "fail" (VNum 7))
      <> Throw (Error ("DontTouchMyReservedwords: " ++ key)).
Proof.
  split; [reflexivity|]. split; [reflexivity|].
  split; [right; left; reflexivity|]. split; [reflexivity|].
  intros key H. vm_compute in H. discriminate H.
Qed.

(** C10, as amended: [commit] is not atomic on its check.  When the
    mutation it calls returns and leaves a reserved word among the keys of [root.data],
    [commit] throws [DontTouchMyReservedwords], and the store it leaves
    holds the state the mutation produced, reserved key included: later
    reads, and the mutations of later commits, see that state. *)
Theorem commit_keeps_changes_when_it_throws :
  forall code proto st name v d ret w,
    truthy (get_prop proto (mutations st) name) = true ->
    call_mutation code (get_prop proto (mutations st) name) (data st) v
    = (d, Normal ret) ->
    In w (keys d) -> includes RESERVEDWORDS w = true ->
    exists key st',
      handle_commit code proto st name v
      = (st', Throw (Error ("DontTouchMyReservedwords: " ++ key)))
      /\ data st' = d
      /\ mutations st' = mutations st /\ actions st' = actions st
      /\ In w (keys (data st'))
      /\ (forall k,
             includes ["commit"; "action"; "data"; "mutations"; "actions"] k = false ->
             proxy_get proto st' k
             = Normal (GotValue (if truthy (get_prop proto d k)
                                 then get_prop proto d k else VUndefined)))
      /\ (forall name2 v2,
             truthy (get_prop proto (mutations st) name2) = true ->
             data (fst (handle_commit code proto st' name2 v2))
             = fst (call_mutation code (get_prop proto (mutations st) name2) d v2)).
Proof.
  intros code proto st name v d ret w Ht Hcall Hin Hw.
  destruct (reserved_key_complete d w Hin Hw) as [key Hkey].
  exists key, (set_data st d).
  split.
  { rewrite handle_commit_is_commit.
    rewrite (commit_runs code proto st name v d (Normal ret) Ht Hcall).
    now rewrite Hkey. }
  repeat split; try assumption.
  - intros k Hk. now rewrite (read_other_key proto (set_data st d) k Hk).
  - intros name2 v2 Ht2. rewrite handle_commit_is_commit.
    destruct (call_mutation code (get_prop proto (mutations st) name2) d v2)
      as [d2 c2] eqn:Hcall2.
    now rewrite (commit_runs code proto (set_data st d) name2 v2 d2 c2 Ht2 Hcall2).
Qed.

Lemma commit_keeps_changes_when_it_throws_witness :
  truthy (get_prop scenario_prototype (mutations store_smuggle) "smuggle") = true
  /\ call_mutation scenario_code
       (get_prop scenario_prototype (mutations store_smuggle) "smuggle")
       (data store_smuggle) (VNum 1)
     = ([("a", VNum 1); ("data", VNum 1)], Normal (VStr "done"))
  /\ In "data" (keys [("a", VNum 1); ("data", VNum 1)])
  /\ includes RESERVEDWORDS "data" = true
  /\ exists key st',
      handle_commit scenario_code scenario_prototype store_smuggle "smuggle" (VNum 1)
      = (st', Throw (Error ("DontTouchMyReservedwords: " ++ key)))
      /\ data st' = [("a", VNum 1); ("data", VNum 1)].
Proof.
  split; [reflexivity|]. split; [reflexivity|].
  split; [right; left; reflexivity|]. split; [reflexivity|].
  destruct (commit_keeps_changes_when_it_throws
              scenario_code scenario_prototype store_smuggle "smuggle" (VNum 1)
              [("a", VNum 1); ("data", VNum 1)] (VStr "done") "data"
              eq_refl eq_refl (or_intror (or_introl eq_refl)) eq_refl)
    as (key & st' & Hc & Hd & _).
  exists key, st'. split; assumption.
Defined.

(** C10, as stated, fails.  The mutation [(s,v)=>{s.data=v; throw v;}],
    invoked via [handle.commit('fail', 'boom')], leaves the reserved word
    [data] as a key of [root.data], and [commit] does not throw
    [DontTouchMyReservedwords]: it throws what the mutation threw.  The
    change persists all the same. *)
Lemma throwing_mutation_is_not_reported :
  own (mutations store_fail) "fail" = Some (VFun "fail")
  /\ fst (call_state (failing_code "fail") (data store_fail) (VStr "boom"))
     = [("a", VNum 1); ("data", VStr "boom")]
  /\ includes RESERVEDWORDS "data" = true
  /\ handle_commit failing_code scenario_prototype store_fail "fail" (VStr "boom")
     = (set_data store_fail [("a", VNum 1); ("data", VStr "boom")],
        Throw (Thrown (VStr "boom")))
  /\ forall key,
      snd (handle_commit failing_code scenario_prototype store_fail "fail"
                         (VStr "boom"))
      <> Throw (Error ("DontTouchMyReservedwords: " ++ key)).
Proof.
  split; [reflexivity|]. split; [reflexivity|]. split; [reflexivity|].
  split; [reflexivity|].
  intros key H. vm_compute in H. discriminate H.
Qed.



(** ** Reads and writes through the handle *)

Lemma read_data_always_fails (proto : obj) (st : store) :
  proxy_get proto st "data"
  = Throw (Error "NoDirectAccessForYou: you must use a mutation.").
Proof. reflexivity. Qed.

Lemma read_commit_and_action (proto : obj) (st : store) :
  proxy_get proto st "commit" = Normal GotCommit
  /\ proxy_get proto st "action" = Normal GotAction.
Proof. split; reflexivity. Qed.

(** A write never changes the store. *)
Lemma write_frame (st : store) (k : string) (v : value) :
  fst (proxy_set st k v) = st.
Proof.
  unfold proxy_set, handler_set. now destruct (includes target_keys k).
Qed.

(** A write of a key that is not an own key of the target is silent. *)
Lemma write_other_key (st : store) (k : string) (v : value) :
  includes target_keys k = false -> proxy_set st k v = (st, Normal tt).
Proof. unfold proxy_set, handler_set. now intros ->. Qed.

(** A dispatch on a name whose lookup gives nothing truthy. *)
Lemma dispatch_miss (code : string -> fn) (proto : obj) (st : store)
      (name : string) (v : value) :
  (truthy (get_prop proto (mutations st) name) = false ->
   handle_commit code proto st name v
   = (st, Throw (Error ("NoSuchMutationError: " ++ name
                        ++ " is not a registered mutation."))))
  /\ (truthy (get_prop proto (actions st) name) = false ->
      handle_action code proto st name v
      = (st, Settled (Throw (Error ("NoSuchActionError: " ++ name
                                    ++ " is not a registered action."))))).
Proof.
  split; intros H.
  - rewrite handle_commit_is_commit. unfold commit. now rewrite H.
  - rewrite handle_action_is_action. unfold action. now rewrite H.
Qed.

(** A name that is neither registered nor inherited misses. *)
Lemma lookup_of_unknown_name (proto o : obj) (name : string) :
  own o name = None -> own proto name = None ->
  truthy (get_prop proto o name) = false.
Proof. unfold get_prop. now intros -> ->. Qed.

(** The dispatch-miss scenario of the tests. *)
Lemma dispatch_miss_nope :
  handle_commit scenario_code scenario_prototype store_a1 "nope" VUndefined
  = (store_a1, Throw (Error "NoSuchMutationError: nope is not a registered mutation."))
  /\ handle_action scenario_code scenario_prototype store_a1 "nope" VUndefined
     = (store_a1, Settled (Throw (Error "NoSuchActionError: nope is not a registered action."))).
Proof. split; reflexivity. Qed.

(** C6 at an inherited name: the store built from [{data:{a:1}}] registers
    no mutation and no action, and neither [handle.commit('toString')] nor
    [handle.action('toString')] fails: the lookup finds
    [Object.prototype.toString] through the prototype of the empty
    mutations (actions) object and the dispatcher calls it. *)
Theorem dispatch_of_inherited_name :
  Store scenario_code scenario_prototype seed_a1 = Normal store_a1
  /\ own (mutations store_a1) "toString" = None
  /\ own (actions store_a1) "toString" = None
  /\ handle_commit scenario_code scenario_prototype store_a1 "toString" VUndefined
     = (store_a1, Normal (VStr "[object Object]"))
  /\ handle_action scenario_code scenario_prototype store_a1 "toString" VUndefined
     = (store_a1, Settled (Normal (VStr "[object Object]"))).
Proof. repeat split. Qed.

(** C7 at the keys [mutations] and [actions]: a read of [handle.data] fails
    with [NoDirectAccessForYou] on every store, and it is not the only read
    that fails: on the store built from [{data:{a:1}}] the reads of
    [handle.mutations] and of [handle.actions] raise a TypeError. *)
Theorem read_of_target_key_raises :
  (forall proto st,
      proxy_get proto st "data"
      = Throw (Error "NoDirectAccessForYou: you must use a mutation."))
  /\ Store scenario_code scenario_prototype seed_a1 = Normal store_a1
  /\ handler_get scenario_prototype store_a1 "mutations" = Normal (GotValue VUndefined)
  /\ (exists msg, proxy_get scenario_prototype store_a1 "mutations"
                  = Throw (TypeError msg))
  /\ (exists msg, proxy_get scenario_prototype store_a1 "actions"
                  = Throw (TypeError msg)).
Proof.
  split; [reflexivity|]. split; [reflexivity|]. split; [reflexivity|].
  split; eexists; reflexivity.
Qed.

(** C2 at the key [actions]: in the store built from
    [{data:{actions:'pending'}}] the data holds the truthy value ['pending']
    at [actions], the trap returns it, and the read of [handle.actions]
    raises a TypeError instead. *)
Theorem read_of_data_key_named_actions :
  Store scenario_code scenario_prototype seed_actions_key = Normal store_actions_key
  /\ includes ["data"; "commit"; "action"] "actions" = false
  /\ get_prop scenario_prototype (data store_actions_key) "actions" = VStr "pending"
  /\ truthy (VStr "pending") = true
  /\ handler_get scenario_prototype store_actions_key "actions"
     = Normal (GotValue (VStr "pending"))
  /\ exists msg, proxy_get scenario_prototype store_actions_key "actions"
                 = Throw (TypeError msg).
Proof. repeat split. eexists; reflexivity. Qed.

(** C3 at the key [data]: on the store built from [{data:{a:1}}] the
    assignment [handle.data = 5] leaves the store as it was and raises a
    TypeError, although the trap returned [true]. *)
Theorem write_of_target_key_raises :
  Store scenario_code scenario_prototype seed_a1 = Normal store_a1
  /\ handler_set store_a1 "data" (VNum 5) = true
  /\ exists msg, proxy_set store_a1 "data" (VNum 5) = (store_a1, Throw (TypeError msg)).
Proof. repeat split. eexists; reflexivity. Qed.

(** ** Construction *)

Lemma Store_past_seed_test (code : string -> fn) (proto : obj) (seed : value) :
  is_seed seed ->
  Store code proto seed =
    match setProp code proto (member proto seed "data") "data" with
    | Throw e => Throw e
    | Normal d =>
        match setProp code proto (member proto seed "mutations") "mutations" with
        | Throw e => Throw e
        | Normal m =>
            match setProp code proto (member proto seed "actions") "actions" with
            | Throw e => Throw e
            | Normal a =>
                if negb (props d) && negb (props m) then
                  Throw (Error "NoPointError: Must have at least 1 data or mutation prop")
                else Normal (mkStore d m a)
            end
        end
    end.
Proof.
  intros [Ht Ho]. unfold Store. now rewrite Ht, Ho.
Qed.

(** When [setProp] throws on a group, no handle is returned; the error is
    the group's own when the groups before it were normalized. *)
Lemma Store_fails_at_group (code : string -> fn) (proto : obj) (seed : value)
      (g : string) (e : exn) :
  is_seed seed -> In g groups ->
  setProp code proto (member proto seed g) g = Throw e ->
  (exists e', Store code proto seed = Throw e')
  /\ (earlier_groups_normalize code proto seed g -> Store code proto seed = Throw e).
Proof.
  intros Hseed Hg Hthrow. rewrite (Store_past_seed_test code proto seed Hseed).
  destruct Hg as [<- | [<- | [<- | []]]].
  - rewrite Hthrow. split; [now exists e | reflexivity].
  - destruct (setProp code proto (member proto seed "data") "data") as [d|e0] eqn:Hd.
    + rewrite Hthrow. split; [now exists e | reflexivity].
    + split; [now exists e0|]. intros [o Ho]. congruence.
  - destruct (setProp code proto (member proto seed "data") "data") as [d|e0] eqn:Hd.
    + destruct (setProp code proto (member proto seed "mutations") "mutations")
        as [m|e1] eqn:Hm.
      * rewrite Hthrow. split; [now exists e | reflexivity].
      * split; [now exists e1|]. intros [_ [o Ho]]. congruence.
    + split; [now exists e0|]. intros [[o Ho] _]. congruence.
Qed.

Lemma setProp_reserved (code : string -> fn) (v : value) (desc : string)
      (proto c : obj) (key : string) :
  candidate code v = Normal (VObj c) -> reserved_key c = Some key ->
  setProp code proto v desc = Throw (Error ("DontTouchMyReservedwords: " ++ key)).
Proof.
  intros Hc Hk. unfold setProp, validate. rewrite Hc.
  cbn [typeof own_props]. now rewrite Hk.
Qed.

(** C8, as amended: when a reserved word [w] is a key of the candidate of
    one of the three groups, construction fails and no handle is returned;
    when the groups before it were normalized, the error is
    [DontTouchMyReservedwords: <key>] with [<key>] the first reserved key of
    that group in enumeration order, which is [w] when [w] comes first. *)
Theorem reserved_key_fails_construction :
  forall code proto seed g c w,
    is_seed seed -> In g groups ->
    candidate code (member proto seed g) = Normal (VObj c) ->
    In w (keys c) -> includes RESERVEDWORDS w = true ->
    (exists e, Store code proto seed = Throw e)
    /\ (earlier_groups_normalize code proto seed g ->
        exists key,
          reserved_key c = Some key
          /\ In key (keys c) /\ includes RESERVEDWORDS key = true
          /\ Store code proto seed
             = Throw (Error ("DontTouchMyReservedwords: " ++ key)))
    /\ (earlier_groups_normalize code proto seed g ->
        reserved_key c = Some w ->
        Store code proto seed = Throw (Error ("DontTouchMyReservedwords: " ++ w))).
Proof.
  intros code proto seed g c w Hseed Hg Hc Hin Hw.
  destruct (reserved_key_complete c w Hin Hw) as [key Hkey].
  destruct (reserved_key_sound c key Hkey) as [Hin' Hk'].
  pose proof (setProp_reserved code _ g proto c key Hc Hkey) as Hthrow.
  destruct (Store_fails_at_group code proto seed g _ Hseed Hg Hthrow) as [Hno Hfirst].
  split; [exact Hno|]. split.
  - intros Hearlier. exists key. repeat split; try assumption. now apply Hfirst.
  - intros Hearlier Hw1. assert (key = w) by congruence. subst key.
    now apply Hfirst.
Qed.

Lemma reserved_key_fails_construction_witness :
  is_seed seed_two_reserved
  /\ In "data" groups
  /\ candidate scenario_code (member scenario_prototype seed_two_reserved "data")
     = Normal (VObj [("commit", VNum 1); ("data", VNum 2)])
  /\ In "commit" (keys [("commit", VNum 1); ("data", VNum 2)])
  /\ includes RESERVEDWORDS "commit" = true
  /\ earlier_groups_normalize scenario_code scenario_prototype seed_two_reserved "data"
  /\ reserved_key [("commit", VNum 1); ("data", VNum 2)] = Some "commit"
  /\ Store scenario_code scenario_prototype seed_two_reserved
     = Throw (Error ("DontTouchMyReservedwords: " ++ "commit")).
Proof.
  split; [split; reflexivity|]. split; [left; reflexivity|].
  split; [reflexivity|]. split; [left; reflexivity|]. split; [reflexivity|].
  split; [exact I|]. split; [reflexivity|].
  refine (proj2 (proj2 (reserved_key_fails_construction
                          scenario_code scenario_prototype seed_two_reserved
                          "data" [("commit", VNum 1); ("data", VNum 2)] "commit"
                          (conj eq_refl eq_refl) (or_introl eq_refl) eq_refl
                          (or_introl eq_refl) eq_refl)) I eq_refl).
Defined.

(** C8, as stated, fails.  In [{data:{commit:1, data:2}}] the reserved word
    [data] is a key of the data group and the error names [commit]; in
    [{data:5, mutations:{commit:f}}] the reserved word [commit] is a key of
    the mutations group and the error is the data group's
    [ValidationError]. *)
Lemma reserved_key_error_names_another :
  (candidate scenario_code (member scenario_prototype seed_two_reserved "data")
   = Normal (VObj [("commit", VNum 1); ("data", VNum 2)])
   /\ In "data" (keys [("commit", VNum 1); ("data", VNum 2)])
   /\ includes RESERVEDWORDS "data" = true
   /\ Store scenario_code scenario_prototype seed_two_reserved
      = Throw (Error "DontTouchMyReservedwords: commit")
   /\ Store scenario_code scenario_prototype seed_two_reserved
      <> Throw (Error "DontTouchMyReservedwords: data"))
  /\ (candidate scenario_code (member scenario_prototype seed_late_reserved "mutations")
      = Normal (VObj [("commit", VFun "set")])
      /\ In "commit" (keys [("commit", VFun "set")])
      /\ includes RESERVEDWORDS "commit" = true
      /\ Store scenario_code scenario_prototype seed_late_reserved
         = Throw (Error "ValidationError: data doesn't resolve to an object")
      /\ Store scenario_code scenario_prototype seed_late_reserved
         <> Throw (Error "DontTouchMyReservedwords: commit")).
Proof.
  split.
  - split; [reflexivity|]. split; [right; left; reflexivity|].
    split; [reflexivity|]. split; [reflexivity|]. discriminate.
  - split; [reflexivity|]. split; [left; reflexivity|].
    split; [reflexivity|]. split; [reflexivity|]. discriminate.
Qed.

Lemma candidate_of_function (code : string -> fn) (v : value) :
  typeof v = "function" ->
  candidate code v =
    match call_producer code v with
    | Throw e => Throw e
    | Normal r => Normal (if truthy r then r else v)
    end.
Proof.
  intros Hf. unfold candidate. rewrite Hf. cbn [String.eqb Ascii.eqb Bool.eqb].
  destruct (call_producer code v) as [r|e]; [|reflexivity].
  now destruct (truthy r).
Qed.

Lemma candidate_of_falsy (code : string -> fn) (v : value) :
  truthy v = false -> candidate code v = Normal (VObj []).
Proof.
  intros Hf. unfold candidate. rewrite Hf.
  destruct v; try discriminate; reflexivity.
Qed.

Lemma candidate_as_is (code : string -> fn) (v : value) :
  truthy v = true -> typeof v <> "function" -> candidate code v = Normal v.
Proof.
  intros Ht Hf. unfold candidate. rewrite Ht.
  apply String.eqb_neq in Hf. now rewrite Hf.
Qed.

Lemma setProp_not_object (code : string -> fn) (proto : obj) (v : value)
      (g : string) :
  truthy v = true -> typeof v <> "function" -> typeof v <> "object" ->
  setProp code proto v g
  = Throw (Error ("ValidationError: " ++ g ++ " doesn't resolve to an object")).
Proof.
  intros Ht Hf Ho. unfold setProp, validate.
  rewrite (candidate_as_is code v Ht Hf).
  apply String.eqb_neq in Ho. now rewrite Ho.
Qed.

Lemma setProp_candidate (code : string -> fn) (proto : obj) (v : value)
      (g : string) (o : obj) :
  setProp code proto v g = Normal o ->
  exists c, candidate code v = Normal c /\ typeof c = "object" /\ o = own_props c.
Proof.
  unfold setProp. destruct (candidate code v) as [c|e]; [|discriminate].
  intros H. exists c. split; [reflexivity|].
  unfold validate in H.
  destruct (typeof c =? "object") eqn:Hty; cbn [negb] in H; [|discriminate].
  apply String.eqb_eq in Hty. split; [exact Hty|].
  destruct (reserved_key (own_props c)); [discriminate|].
  destruct (actions_or_mutations g).
  - change ("function" =? "*") with false in H.
    destruct (disallowed_type proto ["function"] (own_props c) (keys (own_props c)));
      [discriminate|]. now injection H as <-.
  - change ("*" =? "*") with true in H. now injection H as <-.
Qed.

(** C9, as amended: a callable group value is resolved by calling it with no
    arguments (a falsy result leaves the callable itself as the candidate);
    a falsy group value, absent or present ([undefined], [null], [false],
    [0], [NaN], the empty string), is treated as an empty mapping; any other
    value is used as it is.  A group is normalized only when its candidate
    is object-like, and for every truthy group value that is neither
    callable nor an object the normalization fails with
    [ValidationError: <groupName> doesn't resolve to an object]: no handle
    is returned, and the error of the construction is that one when the
    groups before it were normalized. *)
Theorem seed_group_resolution :
  forall code proto,
    (forall v, typeof v = "function" ->
               candidate code v =
                 match call_producer code v with
                 | Throw e => Throw e
                 | Normal r => Normal (if truthy r then r else v)
                 end)
    /\ (forall v, truthy v = false -> candidate code v = Normal (VObj []))
    /\ (forall v, truthy v = true -> typeof v <> "function" ->
                  candidate code v = Normal v)
    /\ (forall v g o,
           setProp code proto v g = Normal o ->
           exists c, candidate code v = Normal c /\ typeof c = "object"
                     /\ o = own_props c)
    /\ (forall v g,
           truthy v = true -> typeof v <> "function" -> typeof v <> "object" ->
           setProp code proto v g
           = Throw (Error ("ValidationError: " ++ g ++ " doesn't resolve to an object")))
    /\ (forall seed g,
           is_seed seed -> In g groups ->
           truthy (member proto seed g) = true ->
           typeof (member proto seed g) <> "function" ->
           typeof (member proto seed g) <> "object" ->
           (exists e, Store code proto seed = Throw e)
           /\ (earlier_groups_normalize code proto seed g ->
               Store code proto seed
               = Throw (Error ("ValidationError: " ++ g
                               ++ " doesn't resolve to an object")))).
Proof.
  intros code proto.
  split; [exact (candidate_of_function code)|].
  split; [exact (candidate_of_falsy code)|].
  split; [exact (candidate_as_is code)|].
  split; [exact (setProp_candidate code proto)|].
  split; [exact (setProp_not_object code proto)|].
  intros seed g Hseed Hg Ht Hf Ho.
  exact (Store_fails_at_group code proto seed g _ Hseed Hg
           (setProp_not_object code proto _ g Ht Hf Ho)).
Qed.

Lemma seed_group_resolution_witness :
  is_seed seed_number_data
  /\ In "data" groups
  /\ truthy (member scenario_prototype seed_number_data "data") = true
  /\ typeof (member scenario_prototype seed_number_data "data") <> "function"
  /\ typeof (member scenario_prototype seed_number_data "data") <> "object"
  /\ earlier_groups_normalize scenario_code scenario_prototype seed_number_data "data"
  /\ Store scenario_code scenario_prototype seed_number_data
     = Throw (Error ("ValidationError: " ++ "data" ++ " doesn't resolve to an object")).
Proof.
  assert (Hf : typeof (member scenario_prototype seed_number_data "data") <> "function")
    by discriminate.
  assert (Ho : typeof (member scenario_prototype seed_number_data "data") <> "object")
    by discriminate.
  split; [split; reflexivity|]. split; [left; reflexivity|].
  split; [reflexivity|]. split; [exact Hf|]. split; [exact Ho|].
  split; [exact I|].
  exact (proj2 (proj2 (proj2 (proj2 (proj2 (proj2
            (seed_group_resolution scenario_code scenario_prototype)))))
            seed_number_data "data" (conj eq_refl eq_refl) (or_introl eq_refl)
            eq_refl Hf Ho) I).
Defined.

(** C9, as stated, fails: in [{data:0, mutations:{set:f}}] the data group
    is the number [0], present, not callable and not an object, and
    construction succeeds, the data group being the empty mapping. *)
Lemma falsy_group_value_is_accepted :
  is_seed seed_zero_data
  /\ own (own_props seed_zero_data) "data" = Some (VNum 0)
  /\ typeof (VNum 0) = "number"
  /\ Store scenario_code scenario_prototype seed_zero_data
     = Normal (mkStore [] [("set", VFun "set")] [])
  /\ Store scenario_code scenario_prototype seed_zero_data
     <> Throw (Error "ValidationError: data doesn't resolve to an object").
Proof.
  split; [split; reflexivity|]. repeat split. discriminate.
Qed.

(** ** What holds of the other keys *)

(** A write followed by a read gives what the read gave before. *)
Lemma write_then_read (proto : obj) (st : store) (k : string) (v : value) :
  includes target_keys k = false ->
  proxy_set st k v = (st, Normal tt)
  /\ proxy_get proto (fst (proxy_set st k v)) k = proxy_get proto st k.
Proof.
  intros Hk. split; [now apply write_other_key|]. now rewrite write_frame.
Qed.

(** Under a key that is neither intercepted nor inherited, a stored falsy
    value reads as an absent one does. *)
Lemma falsy_reads_as_absent (proto : obj) (st : store) (k : string) :
  includes ["commit"; "action"; "data"; "mutations"; "actions"] k = false ->
  (forall v, own (data st) k = Some v -> truthy v = false ->
             proxy_get proto st k = Normal (GotValue VUndefined))
  /\ (own (data st) k = None -> own proto k = None ->
      proxy_get proto st k = Normal (GotValue VUndefined)).
Proof.
  intros Hk. rewrite (read_other_key proto st k Hk). split.
  - intros v Hown Hv. rewrite (get_prop_own proto _ _ _ Hown). now rewrite Hv.
  - intros Hown Hp. now rewrite (lookup_of_unknown_name proto _ k Hown Hp).
Qed.

(** A stored truthy value is what the read returns. *)
Lemma truthy_read (proto : obj) (st : store) (k : string) (v : value) :
  includes ["commit"; "action"; "data"; "mutations"; "actions"] k = false ->
  own (data st) k = Some v -> truthy v = true ->
  proxy_get proto st k = Normal (GotValue v).
Proof.
  intros Hk Hown Hv. rewrite (read_other_key proto st k Hk).
  rewrite (get_prop_own proto _ _ _ Hown). now rewrite Hv.
Qed.

(** A name that is neither registered nor inherited is refused by both
    dispatchers. *)
Lemma dispatch_of_unknown_name (code : string -> fn) (proto : obj) (st : store)
      (name : string) (v : value) :
  own proto name = None ->
  (own (mutations st) name = None ->
   handle_commit code proto st name v
   = (st, Throw (Error ("NoSuchMutationError: " ++ name
                        ++ " is not a registered mutation."))))
  /\ (own (actions st) name = None ->
      handle_action code proto st name v
      = (st, Settled (Throw (Error ("NoSuchActionError: " ++ name
                                    ++ " is not a registered action."))))).
Proof.
  intros Hp. split; intros Hown.
  - apply (proj1 (dispatch_miss code proto st name v)).
    now apply lookup_of_unknown_name.
  - apply (proj2 (dispatch_miss code proto st name v)).
    now apply lookup_of_unknown_name.
Qed.

(** ** What the constructor refuses and what it establishes *)

Lemma own_in_keys (o : obj) (k : string) (v : value) :
  own o k = Some v -> In k (keys o).
Proof.
  induction o as [|[k' v'] rest IH]; cbn [own keys map fst In]; [discriminate|].
  destruct (k' =? k) eqn:Hk.
  - apply String.eqb_eq in Hk. now left.
  - intros H. right. now apply IH.
Qed.

Lemma typeof_function (v : value) :
  typeof v = "function" -> exists f, v = VFun f.
Proof. destruct v; try discriminate. intros _. now eexists. Qed.

Lemma includes_function (t : string) :
  (includes ["function"] t = true -> t = "function")
  /\ (includes ["function"] t = false -> t <> "function").
Proof.
  unfold includes. cbn [existsb]. rewrite orb_false_r. split; intros H.
  - apply String.eqb_eq in H. now symmetry.
  - apply String.eqb_neq in H. congruence.
Qed.

Lemma disallowed_type_none (proto : obj) (types : list string) (o : obj)
      (ks : list string) :
  disallowed_type proto types o ks = None ->
  forall k, In k ks -> includes types (typeof (get_prop proto o k)) = true.
Proof.
  induction ks as [|key rest IH]; cbn [disallowed_type In]; [tauto|].
  destruct (includes types (typeof (get_prop proto o key))) eqn:Hkey;
    [|discriminate].
  intros H k [<- | Hin]; [exact Hkey | now apply IH].
Qed.

Lemma disallowed_type_some (proto : obj) (types : list string) (o : obj)
      (ks : list string) (k : string) :
  In k ks -> includes types (typeof (get_prop proto o k)) = false ->
  exists t, disallowed_type proto types o ks = Some t /\ includes types t = false.
Proof.
  induction ks as [|key rest IH]; cbn [disallowed_type In]; [tauto|].
  intros Hin Hk.
  destruct (includes types (typeof (get_prop proto o key))) eqn:Hkey.
  - destruct Hin as [-> | Hin]; [congruence | now apply IH].
  - now exists (typeof (get_prop proto o key)).
Qed.

Lemma setProp_of_falsy (code : string -> fn) (proto : obj) (v : value)
      (desc : string) :
  truthy v = false -> setProp code proto v desc = Normal [].
Proof.
  intros Hf. unfold setProp. rewrite (candidate_of_falsy code v Hf).
  unfold validate. cbn [typeof own_props reserved_key keys map disallowed_type].
  now destruct (actions_or_mutations desc).
Qed.

(** What a normalized group is made of. *)
Lemma setProp_result (code : string -> fn) (proto : obj) (v : value)
      (g : string) (o : obj) :
  setProp code proto v g = Normal o ->
  reserved_key o = None
  /\ (actions_or_mutations g = true ->
      forall k x, own o k = Some x -> exists f, x = VFun f).
Proof.
  unfold setProp. destruct (candidate code v) as [c|e]; [|discriminate].
  unfold validate.
  destruct (typeof c =? "object"); cbn [negb]; [|discriminate].
  destruct (reserved_key (own_props c)) eqn:Hres; [discriminate|].
  destruct (actions_or_mutations g).
  - change ("function" =? "*") with false. cbv iota.
    destruct (disallowed_type proto ["function"] (own_props c) (keys (own_props c)))
      eqn:Hty; [discriminate|].
    intros [= <-]. unfold assign_empty. split; [exact Hres|].
    intros _ k x Hown. apply typeof_function.
    apply (proj1 (includes_function _)).
    rewrite <- (get_prop_own proto _ _ _ Hown).
    apply (disallowed_type_none proto _ _ _ Hty). now apply own_in_keys with x.
  - change ("*" =? "*") with true. cbv iota.
    intros [= <-]. split; [exact Hres | discriminate].
Qed.

(** X1: a seed that is not an object ([undefined], [null], a boolean, a
    number, a string, a function) is refused with [SeedRequiredError],
    before any group is looked at. *)
Theorem Store_requires_object_seed :
  forall code proto seed,
    (forall o, seed <> VObj o) ->
    Store code proto seed
    = Throw (Error "SeedRequiredError: Must supply object to `new Store()`").
Proof.
  intros code proto seed Hno. unfold Store.
  destruct seed as [| |b|n| |s|o|f]; cbn [typeof truthy];
    try reflexivity; try (now rewrite orb_true_r).
  now destruct (Hno o).
Qed.

Lemma Store_requires_object_seed_witness :
  (forall o, VNull <> VObj o)
  /\ Store scenario_code scenario_prototype VNull
     = Throw (Error "SeedRequiredError: Must supply object to `new Store()`").
Proof.
  assert (H : forall o, VNull <> VObj o) by discriminate.
  split; [exact H|].
  exact (Store_requires_object_seed scenario_code scenario_prototype VNull H).
Defined.

(** X2: a seed whose data and mutations are both absent or falsy is
    refused with [NoPointError] whatever its actions are: actions alone do
    not make a store. *)
Theorem Store_without_data_or_mutation :
  forall code proto seed a,
    is_seed seed ->
    truthy (member proto seed "data") = false ->
    truthy (member proto seed "mutations") = false ->
    setProp code proto (member proto seed "actions") "actions" = Normal a ->
    Store code proto seed
    = Throw (Error "NoPointError: Must have at least 1 data or mutation prop").
Proof.
  intros code proto seed a Hseed Hd Hm Ha.
  rewrite (Store_past_seed_test code proto seed Hseed).
  rewrite (setProp_of_falsy code proto _ "data" Hd).
  rewrite (setProp_of_falsy code proto _ "mutations" Hm).
  now rewrite Ha.
Qed.

Lemma Store_without_data_or_mutation_witness :
  is_seed seed_only_actions
  /\ truthy (member scenario_prototype seed_only_actions "data") = false
  /\ truthy (member scenario_prototype seed_only_actions "mutations") = false
  /\ setProp scenario_code scenario_prototype
             (member scenario_prototype seed_only_actions "actions") "actions"
     = Normal [("go", VFun "go")]
  /\ Store scenario_code scenario_prototype seed_only_actions
     = Throw (Error "NoPointError: Must have at least 1 data or mutation prop").
Proof.
  split; [split; reflexivity|]. split; [reflexivity|]. split; [reflexivity|].
  split; [reflexivity|].
  exact (Store_without_data_or_mutation
           scenario_code scenario_prototype seed_only_actions [("go", VFun "go")]
           (conj eq_refl eq_refl) eq_refl eq_refl eq_refl).
Defined.

(** X3: in every store the constructor returns, no key of the data, of the
    mutations or of the actions is a reserved word, every mutation and
    every action is a function, and the data or the mutations are not
    empty. *)
Theorem Store_establishes_invariant :
  forall code proto seed st,
    Store code proto seed = Normal st ->
    (forall k, In k (keys (data st)) \/ In k (keys (mutations st))
               \/ In k (keys (actions st)) ->
               includes RESERVEDWORDS k = false)
    /\ (forall k m, own (mutations st) k = Some m -> exists f, m = VFun f)
    /\ (forall k a, own (actions st) k = Some a -> exists f, a = VFun f)
    /\ (data st <> [] \/ mutations st <> []).
Proof.
  intros code proto seed st. unfold Store.
  destruct (negb (truthy seed) || negb (typeof seed =? "object")); [discriminate|].
  destruct (setProp code proto (member proto seed "data") "data")
    as [d|e] eqn:Hd; [|discriminate].
  destruct (setProp code proto (member proto seed "mutations") "mutations")
    as [m|e] eqn:Hm; [|discriminate].
  destruct (setProp code proto (member proto seed "actions") "actions")
    as [a|e] eqn:Ha; [|discriminate].
  destruct (negb (props d) && negb (props m)) eqn:Hprops; [discriminate|].
  intros [= <-]. cbn [data mutations actions].
  destruct (setProp_result code proto _ _ _ Hd) as [Hrd _].
  destruct (setProp_result code proto _ _ _ Hm) as [Hrm Hfm].
  destruct (setProp_result code proto _ _ _ Ha) as [Hra Hfa].
  split; [|split; [|split]].
  - intros k [Hk | [Hk | Hk]];
      [ now apply (reserved_key_none d) | now apply (reserved_key_none m)
      | now apply (reserved_key_none a) ].
  - now apply Hfm.
  - now apply Hfa.
  - destruct d as [|p d']; [|left; discriminate].
    destruct m as [|q m']; [discriminate | right; discriminate].
Qed.

Lemma Store_establishes_invariant_witness :
  Store scenario_code scenario_prototype seed_async = Normal store_async
  /\ (forall k m, own (mutations store_async) k = Some m -> exists f, m = VFun f).
Proof.
  split; [reflexivity|].
  exact (proj1 (proj2 (Store_establishes_invariant
                         scenario_code scenario_prototype seed_async store_async
                         eq_refl))).
Defined.

Lemma Store_normalizes (code : string -> fn) (proto : obj) (seed : value)
      (st : store) :
  Store code proto seed = Normal st ->
  setProp code proto (member proto seed "data") "data" = Normal (data st)
  /\ setProp code proto (member proto seed "mutations") "mutations"
     = Normal (mutations st)
  /\ setProp code proto (member proto seed "actions") "actions"
     = Normal (actions st).
Proof.
  unfold Store.
  destruct (negb (truthy seed) || negb (typeof seed =? "object")); [discriminate|].
  destruct (setProp code proto (member proto seed "data") "data")
    as [d|e]; [|discriminate].
  destruct (setProp code proto (member proto seed "mutations") "mutations")
    as [m|e]; [|discriminate].
  destruct (setProp code proto (member proto seed "actions") "actions")
    as [a|e]; [|discriminate].
  destruct (negb (props d) && negb (props m)); [discriminate|].
  now intros [= <-].
Qed.

(** X4: on a store the constructor returned, a registered name always
    dispatches to a function.  [commit] on it ends with what the mutation
    threw, with [DontTouchMyReservedwords], or with the mutation's return
    value, never with "is not a function"; [action] on it returns what the
    call of the action returns. *)
Theorem constructed_store_calls_functions :
  forall code proto seed st,
    Store code proto seed = Normal st ->
    (forall name m v,
        own (mutations st) name = Some m ->
        exists f,
          m = VFun f
          /\ handle_commit code proto st name v
             = (set_data st (fst (call_state (code f) (data st) v)),
                match snd (call_state (code f) (data st) v) with
                | Throw e => Throw e
                | Normal ret =>
                    match reserved_key (fst (call_state (code f) (data st) v)) with
                    | Some key => Throw (Error ("DontTouchMyReservedwords: " ++ key))
                    | None => Normal ret
                    end
                end))
    /\ (forall name a v,
           own (actions st) name = Some a ->
           exists f,
             a = VFun f
             /\ handle_action code proto st name v
                = (fst (start code proto (call_commit (code f) v) st),
                   settle (is_async (code f))
                          (snd (start code proto (call_commit (code f) v) st)))).
Proof.
  intros code proto seed st HS.
  destruct (Store_normalizes code proto seed st HS) as (_ & Hm & Ha).
  destruct (setProp_result code proto _ _ _ Hm) as [_ Hfm].
  destruct (setProp_result code proto _ _ _ Ha) as [_ Hfa].
  split.
  - intros name m v Hown. destruct (Hfm eq_refl name m Hown) as [f ->].
    exists f. split; [reflexivity|].
    destruct (registered_mutation code proto st name f v Hown) as [Ht Hcall].
    rewrite handle_commit_is_commit.
    destruct (call_state (code f) (data st) v) as [d c] eqn:Hcs.
    now rewrite (commit_runs code proto st name v d c Ht Hcall).
  - intros name a v Hown. destruct (Hfa eq_refl name a Hown) as [f ->].
    exists f. split; [reflexivity|].
    rewrite handle_action_is_action. unfold action.
    now rewrite (get_prop_own proto _ _ _ Hown).
Qed.

Lemma constructed_store_calls_functions_witness :
  Store scenario_code scenario_prototype seed_roundtrip = Normal store_roundtrip
  /\ own (mutations store_roundtrip) "set" = Some (VFun "set")
  /\ exists f,
      VFun "set" = VFun f
      /\ handle_commit scenario_code scenario_prototype store_roundtrip "set" (VNum 5)
         = (set_data store_roundtrip
                     (fst (call_state (scenario_code f) (data store_roundtrip) (VNum 5))),
            match snd (call_state (scenario_code f) (data store_roundtrip) (VNum 5)) with
            | Throw e => Throw e
            | Normal ret =>
                match reserved_key
                        (fst (call_state (scenario_code f) (data store_roundtrip) (VNum 5)))
                with
                | Some key => Throw (Error ("DontTouchMyReservedwords: " ++ key))
                | None => Normal ret
                end
            end).
Proof.
  split; [reflexivity|]. split; [reflexivity|].
  exact (proj1 (constructed_store_calls_functions
                  scenario_code scenario_prototype seed_roundtrip store_roundtrip
                  eq_refl)
               "set" (VFun "set") (VNum 5) eq_refl).
Defined.

(** X5: in the mutations and in the actions group a value that is not a
    function is refused with [DisallowedTypeError], which names the [typeof]
    of the first such value; the same mapping is accepted as the data
    group.  (A reserved key is reported first: the candidate here has
    none.) *)
Theorem setProp_rejects_non_function :
  forall code proto v c g k x,
    candidate code v = Normal (VObj c) ->
    reserved_key c = None ->
    g = "mutations" \/ g = "actions" ->
    own c k = Some x -> typeof x <> "function" ->
    (exists t,
        t <> "function"
        /\ disallowed_type proto ["function"] c (keys c) = Some t
        /\ setProp code proto v g
           = Throw (Error ("DisallowedTypeError: " ++ g ++ " can't accept " ++ t)))
    /\ setProp code proto v "data" = Normal c.
Proof.
  intros code proto v c g k x Hc Hres Hg Hown Hty.
  assert (Hbad : includes ["function"] (typeof (get_prop proto c k)) = false).
  { rewrite (get_prop_own proto _ _ _ Hown).
    unfold includes. cbn [existsb]. rewrite orb_false_r.
    apply String.eqb_neq. congruence. }
  destruct (disallowed_type_some proto ["function"] c (keys c) k
              (own_in_keys c k x Hown) Hbad) as (t & Ht & Hnot).
  split.
  - exists t. split; [now apply (proj2 (includes_function t))|].
    split; [exact Ht|].
    unfold setProp, validate. rewrite Hc. cbn [typeof own_props].
    rewrite Hres.
    destruct Hg as [-> | ->];
      (change (actions_or_mutations _) with true; cbv iota;
       change ("function" =? "*") with false; cbv iota; now rewrite Ht).
  - unfold setProp, validate. rewrite Hc. cbn [typeof own_props].
    now rewrite Hres.
Qed.

Lemma setProp_rejects_non_function_witness :
  candidate scenario_code (member scenario_prototype seed_number_mutation "mutations")
  = Normal (VObj [("m", VNum 3)])
  /\ reserved_key [("m", VNum 3)] = None
  /\ own [("m", VNum 3)] "m" = Some (VNum 3)
  /\ typeof (VNum 3) <> "function"
  /\ setProp scenario_code scenario_prototype
             (member scenario_prototype seed_number_mutation "mutations") "data"
     = Normal [("m", VNum 3)].
Proof.
  assert (Hty : typeof (VNum 3) <> "function") by discriminate.
  split; [reflexivity|]. split; [reflexivity|]. split; [reflexivity|].
  split; [exact Hty|].
  exact (proj2 (setProp_rejects_non_function
                  scenario_code scenario_prototype
                  (member scenario_prototype seed_number_mutation "mutations")
                  [("m", VNum 3)] "mutations" "m" (VNum 3)
                  eq_refl eq_refl (or_introl eq_refl) eq_refl Hty)).
Defined.

(** ** Dispatch and the handle, composed *)

Lemma finish_start (code : string -> fn) (proto : obj) (p : prog) :
  forall st,
    finish code proto (snd (start code proto p st)) (fst (start code proto p st))
    = finish code proto p st.
Proof.
  induction p as [v | e | name arg k IH | k IH]; intros st; try reflexivity.
  cbn [start finish]. apply IH.
Qed.

Lemma await_settle (code : string -> fn) (proto : obj) (async : bool)
      (rest : prog) (st : store) :
  await code proto (settle async rest) st = finish code proto rest st.
Proof. destruct async; destruct rest; reflexivity. Qed.

(** X6: awaiting what [handle.action] returned, with nothing else touching
    the store meanwhile, leaves the store and gives the completion that
    running the whole body of the action from the start gives: nothing of
    the body is lost or run twice by the dispatcher, whether the action is
    [async] or not. *)
Theorem await_of_action_runs_whole_body :
  forall code proto st name f v,
    own (actions st) name = Some (VFun f) ->
    await code proto (snd (handle_action code proto st name v))
          (fst (handle_action code proto st name v))
    = finish code proto (call_commit (code f) v) st.
Proof.
  intros code proto st name f v Hown.
  rewrite handle_action_is_action. unfold action.
  rewrite (get_prop_own proto _ _ _ Hown). cbn [truthy call_action fst snd].
  rewrite await_settle. apply finish_start.
Qed.

Lemma await_of_action_runs_whole_body_witness :
  own (actions store_async) "go" = Some (VFun "go")
  /\ await scenario_code scenario_prototype
           (snd (handle_action scenario_code scenario_prototype store_async
                               "go" (VStr "tigerbalm")))
           (fst (handle_action scenario_code scenario_prototype store_async
                               "go" (VStr "tigerbalm")))
     = finish scenario_code scenario_prototype
              (call_commit (scenario_code "go") (VStr "tigerbalm")) store_async.
Proof.
  split; [reflexivity|].
  exact (await_of_action_runs_whole_body
           scenario_code scenario_prototype store_async "go" "go"
           (VStr "tigerbalm") eq_refl).
Defined.

Lemma own_set_prop_same (o : obj) (k : string) (v : value) :
  own (set_prop o k v) k = Some v.
Proof.
  induction o as [|[k' v'] rest IH]; cbn [set_prop own].
  - now rewrite String.eqb_refl.
  - destruct (k' =? k) eqn:Hk; cbn [own].
    + now rewrite String.eqb_refl.
    + now rewrite Hk.
Qed.

Lemma own_set_prop_other (o : obj) (k k' : string) (v : value) :
  k' <> k -> own (set_prop o k v) k' = own o k'.
Proof.
  intros Hne. apply not_eq_sym in Hne. apply String.eqb_neq in Hne.
  induction o as [|[k0 v0] rest IH]; cbn [set_prop own].
  - now rewrite Hne.
  - destruct (k0 =? k) eqn:Hk; cbn [own].
    + apply String.eqb_eq in Hk. subst k0. now rewrite Hne.
    + now rewrite IH.
Qed.

Lemma reserved_key_set_prop (o : obj) (k : string) (v : value) :
  reserved_key o = None -> includes RESERVEDWORDS k = false ->
  reserved_key (set_prop o k v) = None.
Proof.
  intros Ho Hk. induction o as [|[k0 v0] rest IH]; cbn [set_prop reserved_key].
  - now rewrite Hk.
  - cbn [reserved_key] in Ho.
    destruct (includes RESERVEDWORDS k0) eqn:Hk0; [discriminate|].
    destruct (k0 =? k); cbn [reserved_key].
    + now rewrite Hk.
    + rewrite Hk0. now apply IH.
Qed.

Lemma get_prop_set_prop (proto o : obj) (k : string) (v : value) :
  get_prop proto (set_prop o k v) k = v
  /\ forall k', k' <> k -> get_prop proto (set_prop o k v) k' = get_prop proto o k'.
Proof.
  unfold get_prop. split.
  - now rewrite own_set_prop_same.
  - intros k' Hne. now rewrite (own_set_prop_other o k k' v Hne).
Qed.

(** A read depends on the store through the data's value at that key only. *)
Lemma proxy_get_ext (proto : obj) (st1 st2 : store) (k : string) :
  get_prop proto (data st1) k = get_prop proto (data st2) k ->
  proxy_get proto st1 k = proxy_get proto st2 k.
Proof. unfold proxy_get, handler_get. now intros ->. Qed.

Lemma not_intercepted (k : string) :
  includes ["commit"; "action"; "data"; "mutations"; "actions"] k = false ->
  includes RESERVEDWORDS k = false /\ includes target_keys k = false.
Proof.
  unfold includes, RESERVEDWORDS, target_keys. cbn [existsb].
  rewrite !orb_false_r, !orb_false_iff.
  intros (Hc & Ha & Hd & Hm & Hs). now rewrite Hc, Ha, Hd, Hm, Hs.
Qed.

(** X7: the round trip through the handle.  When the registered mutation
    [name] is an assignment [state[k] = value], with [k] other than
    [__proto__], and the data holds no reserved key, [handle.commit(name, v)] returns what the mutation
    returns, after it a read of [handle[k]] gives [v] (or nothing when [v]
    is falsy), and the read of every other key gives what it gave before. *)
Theorem commit_then_read_roundtrip :
  forall code proto st name f k v ret,
    own (mutations st) name = Some (VFun f) ->
    (forall s x, call_state (code f) s x = (set_prop s k x, Normal ret)) ->
    includes ["commit"; "action"; "data"; "mutations"; "actions"] k = false ->
    k <> "__proto__" ->
    reserved_key (data st) = None ->
    snd (handle_commit code proto st name v) = Normal ret
    /\ proxy_get proto (fst (handle_commit code proto st name v)) k
       = Normal (GotValue (if truthy v then v else VUndefined))
    /\ (forall k', k' <> k ->
                   proxy_get proto (fst (handle_commit code proto st name v)) k'
                   = proxy_get proto st k').
Proof.
  intros code proto st name f k v ret Hown Hset Hk _ Hres.
  destruct (not_intercepted k Hk) as [Hrk _].
  destruct (registered_mutation code proto st name f v Hown) as [Ht Hcall].
  rewrite Hset in Hcall.
  rewrite handle_commit_is_commit.
  rewrite (commit_runs code proto st name v _ _ Ht Hcall).
  rewrite (reserved_key_set_prop (data st) k v Hres Hrk). cbn [fst snd].
  destruct (get_prop_set_prop proto (data st) k v) as [Hsame Hother].
  split; [reflexivity|]. split.
  - rewrite (read_other_key proto _ k Hk). cbn [data set_data].
    now rewrite Hsame.
  - intros k' Hne. apply proxy_get_ext. cbn [data set_data]. now apply Hother.
Qed.

Lemma commit_then_read_roundtrip_witness :
  own (mutations store_roundtrip) "set" = Some (VFun "set")
  /\ (forall s x, call_state (scenario_code "set") s x
                  = (set_prop s "a" x, Normal VUndefined))
  /\ includes ["commit"; "action"; "data"; "mutations"; "actions"] "a" = false
  /\ "a" <> "__proto__"
  /\ reserved_key (data store_roundtrip) = None
  /\ proxy_get scenario_prototype
               (fst (handle_commit scenario_code scenario_prototype store_roundtrip
                                   "set" (VStr "bc"))) "a"
     = Normal (GotValue (if truthy (VStr "bc") then VStr "bc" else VUndefined)).
Proof.
  assert (Hset : forall s x, call_state (scenario_code "set") s x
                             = (set_prop s "a" x, Normal VUndefined))
    by reflexivity.
  assert (Hne : "a" <> "__proto__") by discriminate.
  split; [reflexivity|]. split; [exact Hset|]. split; [reflexivity|].
  split; [exact Hne|]. split; [reflexivity|].
  exact (proj1 (proj2 (commit_then_read_roundtrip
                         scenario_code scenario_prototype store_roundtrip
                         "set" "set" "a" (VStr "bc") VUndefined
                         eq_refl Hset eq_refl Hne eq_refl))).
Defined.

(** X8: a key that the data does not hold is not always absent: when
    [Object.prototype] has a truthy member under that name, the read
    returns the inherited member. *)
Theorem read_of_inherited_key :
  forall proto st k v,
    includes ["commit"; "action"; "data"; "mutations"; "actions"] k = false ->
    own (data st) k = None -> own proto k = Some v -> truthy v = true ->
    proxy_get proto st k = Normal (GotValue v).
Proof.
  intros proto st k v Hk Hown Hp Hv. rewrite (read_other_key proto st k Hk).
  unfold get_prop. now rewrite Hown, Hp, Hv.
Qed.

Lemma read_of_inherited_key_witness :
  includes ["commit"; "action"; "data"; "mutations"; "actions"] "toString" = false
  /\ own (data store_a1) "toString" = None
  /\ proxy_get scenario_prototype store_a1 "toString"
     = Normal (GotValue (VFun "Object.prototype.toString")).
Proof.
  split; [reflexivity|]. split; [reflexivity|].
  exact (read_of_inherited_key scenario_prototype store_a1 "toString"
                               (VFun "Object.prototype.toString")
                               eq_refl eq_refl eq_refl eq_refl).
Defined.

(** X9: a read of a key other than [commit], [action], [data], [mutations]
    and [actions] never raises.  It returns the value the data holds under
    the key when that value is truthy, and nothing when the value is falsy
    or when neither the data nor [Object.prototype] has the key. *)
Theorem read_of_plain_key :
  forall proto st k,
    includes ["commit"; "action"; "data"; "mutations"; "actions"] k = false ->
    (exists v, proxy_get proto st k = Normal (GotValue v))
    /\ (forall x, own (data st) k = Some x -> truthy x = true ->
                  proxy_get proto st k = Normal (GotValue x))
    /\ (forall x, own (data st) k = Some x -> truthy x = false ->
                  proxy_get proto st k = Normal (GotValue VUndefined))
    /\ (own (data st) k = None -> own proto k = None ->
        proxy_get proto st k = Normal (GotValue VUndefined)).
Proof.
  intros proto st k Hk. split; [|split; [|split]].
  - rewrite (read_other_key proto st k Hk). now eexists.
  - intros x Hown Hx. now apply truthy_read.
  - intros x. apply (proj1 (falsy_reads_as_absent proto st k Hk)).
  - apply (proj2 (falsy_reads_as_absent proto st k Hk)).
Qed.

Lemma read_of_plain_key_witness :
  includes ["commit"; "action"; "data"; "mutations"; "actions"] "x" = false
  /\ own (data store_async) "x" = Some VNull
  /\ truthy VNull = false
  /\ proxy_get scenario_prototype store_async "x" = Normal (GotValue VUndefined).
Proof.
  split; [reflexivity|]. split; [reflexivity|]. split; [reflexivity|].
  exact (proj1 (proj2 (proj2 (read_of_plain_key scenario_prototype store_async "x"
                                                eq_refl)))
               VNull eq_refl eq_refl).
Defined.

(** X10: an assignment to a key of the handle other than [data],
    [mutations] and [actions] is silent and changes nothing: the store is
    the same, and a read of the key after it gives what it gave before.
    So [handle.commit] and [handle.action] are still the dispatchers after
    an assignment to them, and a key under which the data holds a truthy
    value still reads as that value and not as the assigned one. *)
Theorem write_is_absorbed :
  forall proto st k v,
    includes target_keys k = false ->
    proxy_set st k v = (st, Normal tt)
    /\ proxy_get proto (fst (proxy_set st k v)) k = proxy_get proto st k
    /\ (k = "commit" ->
        proxy_get proto (fst (proxy_set st k v)) k = Normal GotCommit)
    /\ (k = "action" ->
        proxy_get proto (fst (proxy_set st k v)) k = Normal GotAction)
    /\ (includes ["commit"; "action"] k = false ->
        forall x, own (data st) k = Some x -> truthy x = true ->
                  proxy_get proto (fst (proxy_set st k v)) k = Normal (GotValue x)).
Proof.
  intros proto st k v Htk.
  destruct (write_then_read proto st k v Htk) as [Hw Hr].
  split; [exact Hw|]. split; [exact Hr|]. split; [|split].
  - intros ->. now rewrite Hr.
  - intros ->. now rewrite Hr.
  - intros Hca x Hown Hx. rewrite Hr. apply truthy_read; [|assumption..].
    revert Htk Hca. unfold includes, target_keys. cbn [existsb].
    rewrite !orb_false_r, !orb_false_iff.
    intros (Hd & Hm & Hs) (Hc & Ha). now rewrite Hc, Ha, Hd, Hm, Hs.
Qed.

Lemma write_is_absorbed_witness :
  includes target_keys "commit" = false
  /\ includes target_keys "a" = false
  /\ includes ["commit"; "action"] "a" = false
  /\ own (data store_a1) "a" = Some (VNum 1)
  /\ truthy (VNum 1) = true
  /\ proxy_set store_a1 "commit" (VStr "abc") = (store_a1, Normal tt)
  /\ proxy_get scenario_prototype (fst (proxy_set store_a1 "commit" (VStr "abc")))
               "commit"
     = Normal GotCommit
  /\ proxy_get scenario_prototype (fst (proxy_set store_a1 "a" (VStr "abc"))) "a"
     = Normal (GotValue (VNum 1)).
Proof.
  split; [reflexivity|]. split; [reflexivity|]. split; [reflexivity|].
  split; [reflexivity|]. split; [reflexivity|].
  split; [exact (proj1 (write_is_absorbed scenario_prototype store_a1 "commit"
                                          (VStr "abc") eq_refl))|].
  split; [exact (proj1 (proj2 (proj2 (write_is_absorbed
                                        scenario_prototype store_a1 "commit"
                                        (VStr "abc") eq_refl)))
                       eq_refl)|].
  exact (proj2 (proj2 (proj2 (proj2 (write_is_absorbed
                                       scenario_prototype store_a1 "a"
                                       (VStr "abc") eq_refl))))
               eq_refl (VNum 1) eq_refl eq_refl).
Defined.

(** X11: a name that is neither a key of the mutations (of the actions) nor
    a member of [Object.prototype] is refused: [commit] throws
    [NoSuchMutationError], [action] throws [NoSuchActionError], each naming
    it, and the store is left as it was. *)
Theorem unregistered_name_is_refused :
  forall code proto st name v,
    own proto name = None ->
    (own (mutations st) name = None ->
     handle_commit code proto st name v
     = (st, Throw (Error ("NoSuchMutationError: " ++ name
                          ++ " is not a registered mutation."))))
    /\ (own (actions st) name = None ->
        handle_action code proto st name v
        = (st, Settled (Throw (Error ("NoSuchActionError: " ++ name
                                      ++ " is not a registered action."))))).
Proof.
  intros code proto st name v Hp. split; intros Hown.
  - apply (proj1 (dispatch_miss code proto st name v)).
    now apply lookup_of_unknown_name.
  - apply (proj2 (dispatch_miss code proto st name v)).
    now apply lookup_of_unknown_name.
Qed.

Lemma unregistered_name_is_refused_witness :
  own scenario_prototype "blargh" = None
  /\ own (mutations store_a1) "blargh" = None
  /\ handle_commit scenario_code scenario_prototype store_a1 "blargh" VUndefined
     = (store_a1, Throw (Error ("NoSuchMutationError: " ++ "blargh"
                                ++ " is not a registered mutation."))).
Proof.
  split; [reflexivity|]. split; [reflexivity|].
  exact (proj1 (unregistered_name_is_refused
                  scenario_code scenario_prototype store_a1 "blargh" VUndefined
                  eq_refl)
               eq_refl).
Defined.

(** ** src/lib/utils.js *)

(** X12: [valueOrFunction] gives the value back, uncalled, when it is not a
    function or when [overide] is truthy, and the result of calling it with
    no arguments otherwise.  On a truthy group value whose resolution is
    truthy, [setProp] resolves as [valueOrFunction(value)] does. *)
Theorem valueOrFunction_resolves :
  forall code val overide,
    (typeof val <> "function" ->
     Utils.valueOrFunction code val overide = Normal val)
    /\ (truthy overide = true ->
        Utils.valueOrFunction code val overide = Normal val)
    /\ (typeof val = "function" -> truthy overide = false ->
        Utils.valueOrFunction code val overide = call_producer code val)
    /\ (truthy val = true ->
        (forall r, Utils.valueOrFunction code val VUndefined = Normal r ->
                   truthy r = true) ->
        candidate code val = Utils.valueOrFunction code val VUndefined).
Proof.
  intros code val overide. unfold Utils.valueOrFunction.
  split; [|split; [|split]].
  - intros Hf. apply String.eqb_neq in Hf. now rewrite Hf.
  - intros Ho. destruct overide; try discriminate; cbn [truthy] in *;
      rewrite ?Ho; now rewrite andb_false_r.
  - intros Hf Ho. rewrite Hf. cbn [String.eqb Ascii.eqb Bool.eqb andb].
    destruct overide; cbn [truthy] in *; try discriminate;
      rewrite ?Ho; reflexivity.
  - cbn [truthy negb]. rewrite andb_true_r. intros Hv Hr.
    destruct (typeof val =? "function") eqn:Hf.
    + apply String.eqb_eq in Hf. rewrite (candidate_of_function code val Hf).
      destruct (call_producer code val) as [r|e]; [|reflexivity].
      now rewrite (Hr r eq_refl).
    + apply String.eqb_neq in Hf. now apply candidate_as_is.
Qed.

Lemma valueOrFunction_resolves_witness :
  typeof (VStr "somepath.blargh") <> "function"
  /\ Utils.valueOrFunction scenario_code (VStr "somepath.blargh") VUndefined
     = Normal (VStr "somepath.blargh").
Proof.
  assert (H : typeof (VStr "somepath.blargh") <> "function") by discriminate.
  split; [exact H|].
  exact (proj1 (valueOrFunction_resolves scenario_code (VStr "somepath.blargh")
                                         VUndefined) H).
Defined.

(** X13: [props] is [true] exactly on an object that has a key, [false] on
    an empty object and on every value that is not [typeof] object, and it
    throws on [null] and on nothing else; on the groups of a store it is
    the test the constructor makes. *)
Theorem props_of_any_value :
  forall v,
    (Utils.props v = Normal true <-> exists k x rest, v = VObj ((k, x) :: rest))
    /\ ((exists e, Utils.props v = Throw e) <-> v = VNull)
    /\ (typeof v <> "object" -> Utils.props v = Normal false)
    /\ (forall o, v = VObj o -> Utils.props v = Normal (props o)).
Proof.
  intros v. split; [|split; [|split]].
  - split.
    + destruct v as [| |b|n| |s|o|f]; try discriminate.
      destruct o as [|[k x] rest]; [discriminate|]. intros _. now exists k, x, rest.
    + intros (k & x & rest & ->). reflexivity.
  - split.
    + intros [e He]. destruct v; try discriminate; reflexivity.
    + intros ->. now eexists.
  - intros Hty. unfold Utils.props. apply String.eqb_neq in Hty. now rewrite Hty.
  - intros o ->. reflexivity.
Qed.

Lemma props_of_any_value_witness :
  typeof (VStr "abc") <> "object" /\ Utils.props (VStr "abc") = Normal false.
Proof.
  assert (H : typeof (VStr "abc") <> "object") by discriminate.
  split; [exact H|].
  exact (proj1 (proj2 (proj2 (props_of_any_value (VStr "abc")))) H).
Defined.

(** ** The two revisions of src/index.js *)

Lemma setProp_earlier (code : string -> fn) (proto : obj) (v : value)
      (g : string) (o : obj) :
  setProp code proto v g = Normal o -> Earlier.setProp code v g = Normal o.
Proof.
  unfold setProp, Earlier.setProp.
  destruct (candidate code v) as [c|e]; [|discriminate].
  unfold validate, Earlier.validate.
  destruct (typeof c =? "object"); cbn [negb]; [|discriminate].
  destruct (reserved_key (own_props c)); [discriminate|].
  destruct (actions_or_mutations g).
  - change ("function" =? "*") with false. cbv iota.
    now destruct (disallowed_type proto ["function"] (own_props c) (keys (own_props c))).
  - change ("*" =? "*") with true. now cbv iota.
Qed.

(** X14: the later revision of the constructor only refuses more.  Every
    seed it accepts was accepted by the earlier revision, which built the
    same store from it. *)
Theorem later_constructor_refuses_more :
  forall code proto seed st,
    Store code proto seed = Normal st ->
    Earlier.Store code proto seed = Normal st.
Proof.
  intros code proto seed st. unfold Store, Earlier.Store.
  destruct (negb (truthy seed) || negb (typeof seed =? "object")); [discriminate|].
  destruct (setProp code proto (member proto seed "data") "data")
    as [d|e] eqn:Hd; [|discriminate].
  destruct (setProp code proto (member proto seed "mutations") "mutations")
    as [m|e] eqn:Hm; [|discriminate].
  destruct (setProp code proto (member proto seed "actions") "actions")
    as [a|e] eqn:Ha; [|discriminate].
  rewrite (setProp_earlier code proto _ _ _ Hd).
  rewrite (setProp_earlier code proto _ _ _ Hm).
  now rewrite (setProp_earlier code proto _ _ _ Ha).
Qed.

Lemma later_constructor_refuses_more_witness :
  Store scenario_code scenario_prototype seed_async = Normal store_async
  /\ Earlier.Store scenario_code scenario_prototype seed_async = Normal store_async.
Proof.
  split; [reflexivity|].
  exact (later_constructor_refuses_more
           scenario_code scenario_prototype seed_async store_async eq_refl).
Defined.

(** X15: on a name whose lookup gives a function or nothing truthy, the
    later [commit] is the earlier [commit] followed by the scan of the keys
    of [root.data]: the same store is left, what the earlier one threw is
    thrown, and what it returned is returned unless the scan finds a
    reserved key. *)
Theorem later_commit_adds_the_scan :
  forall code proto st name v,
    truthy (get_prop proto (mutations st) name) = false
    \/ (exists f, get_prop proto (mutations st) name = VFun f) ->
    commit code proto st name v
    = (fst (Earlier.commit code proto st name v),
       match snd (Earlier.commit code proto st name v) with
       | Throw e => Throw e
       | Normal ret =>
           match reserved_key (data (fst (Earlier.commit code proto st name v))) with
           | Some key => Throw (Error ("DontTouchMyReservedwords: " ++ key))
           | None => Normal ret
           end
       end).
Proof.
  intros code proto st name v [Hmiss | [f Hf]];
    unfold commit, Earlier.commit.
  - now rewrite Hmiss.
  - rewrite Hf. cbn [truthy typeof andb String.eqb Ascii.eqb Bool.eqb call_mutation].
    destruct (call_state (code f) (data st) v) as [d [ret|e]]; cbn [fst snd];
      [|reflexivity].
    now destruct (reserved_key (data (set_data st d))).
Qed.

Lemma later_commit_adds_the_scan_witness :
  (exists f, get_prop scenario_prototype (mutations store_smuggle) "smuggle" = VFun f)
  /\ snd (Earlier.commit scenario_code scenario_prototype store_smuggle
                         "smuggle" (VNum 1))
     = Normal (VStr "done")
  /\ commit scenario_code scenario_prototype store_smuggle "smuggle" (VNum 1)
     = (fst (Earlier.commit scenario_code scenario_prototype store_smuggle
                            "smuggle" (VNum 1)),
        match snd (Earlier.commit scenario_code scenario_prototype store_smuggle
                                  "smuggle" (VNum 1)) with
        | Throw e => Throw e
        | Normal ret =>
            match reserved_key
                    (data (fst (Earlier.commit scenario_code scenario_prototype
                                               store_smuggle "smuggle" (VNum 1))))
            with
            | Some key => Throw (Error ("DontTouchMyReservedwords: " ++ key))
            | None => Normal ret
            end
        end).
Proof.
  assert (H : exists f, get_prop scenario_prototype (mutations store_smuggle) "smuggle"
                        = VFun f)
    by (exists "smuggle"; reflexivity).
  split; [exact H|]. split; [reflexivity|].
  exact (later_commit_adds_the_scan scenario_code scenario_prototype
                                    store_smuggle "smuggle" (VNum 1) (or_intror H)).
Defined.

(** X16: the earlier revision admits values that are not functions.  Its
    [setProp] accepts an object without reserved keys as any group,
    whatever the types of its values; and on a registered name whose value
    is not a function its [commit] and its [action] throw
    [NoSuchMutationError] and [NoSuchActionError], as for a name that is
    not registered, leaving the store as it was. *)
Theorem earlier_revision_admits_non_functions :
  forall code proto,
    (forall v c g,
        candidate code v = Normal (VObj c) -> reserved_key c = None ->
        Earlier.setProp code v g = Normal c)
    /\ (forall st name m v,
           own (mutations st) name = Some m -> typeof m <> "function" ->
           Earlier.commit code proto st name v
           = (st, Throw (Error ("NoSuchMutationError: " ++ name
                                ++ " is not a registered mutation."))))
    /\ (forall st name a v,
           own (actions st) name = Some a -> typeof a <> "function" ->
           Earlier.action code proto st name v
           = (st, Settled (Throw (Error ("NoSuchActionError: " ++ name
                                         ++ " is not a registered action."))))).
Proof.
  intros code proto. split; [|split].
  - intros v c g Hc Hres. unfold Earlier.setProp, Earlier.validate.
    rewrite Hc. cbn [typeof own_props]. now rewrite Hres.
  - intros st name m v Hown Hty. unfold Earlier.commit.
    rewrite (get_prop_own proto _ _ _ Hown).
    apply String.eqb_neq in Hty. now rewrite Hty, andb_false_r.
  - intros st name a v Hown Hty. unfold Earlier.action.
    rewrite (get_prop_own proto _ _ _ Hown).
    apply String.eqb_neq in Hty. now rewrite Hty, andb_false_r.
Qed.

Lemma earlier_revision_admits_non_functions_witness :
  Earlier.Store scenario_code scenario_prototype seed_number_mutation
  = Normal store_number_mutation
  /\ own (mutations store_number_mutation) "m" = Some (VNum 3)
  /\ typeof (VNum 3) <> "function"
  /\ Earlier.commit scenario_code scenario_prototype store_number_mutation
                    "m" VUndefined
     = (store_number_mutation,
        Throw (Error ("NoSuchMutationError: " ++ "m"
                      ++ " is not a registered mutation."))).
Proof.
  assert (Hty : typeof (VNum 3) <> "function") by discriminate.
  split; [reflexivity|]. split; [reflexivity|]. split; [exact Hty|].
  exact (proj1 (proj2 (earlier_revision_admits_non_functions
                         scenario_code scenario_prototype))
               store_number_mutation "m" (VNum 3) VUndefined eq_refl Hty).
Defined.

(** ** Producers, and mutations that throw *)

(** X17: a group given as a function of no arguments is normalized as the
    value the function returns, when that value is truthy and is not itself
    a function: the same mapping is built, or the same error is thrown. *)
Theorem producer_is_its_product :
  forall code proto f r g,
    call0 (code f) = Normal r ->
    truthy r = true -> typeof r <> "function" ->
    setProp code proto (VFun f) g = setProp code proto r g.
Proof.
  intros code proto f r g Hcall Hr Hty. unfold setProp.
  rewrite (candidate_of_function code (VFun f) eq_refl).
  cbn [call_producer]. rewrite Hcall, Hr.
  now rewrite (candidate_as_is code r Hr Hty).
Qed.

Lemma producer_is_its_product_witness :
  call0 (scenario_code "go") = Normal (VObj [])
  /\ truthy (VObj []) = true
  /\ typeof (VObj []) <> "function"
  /\ setProp scenario_code scenario_prototype (VFun "go") "data"
     = setProp scenario_code scenario_prototype (VObj []) "data".
Proof.
  assert (Hty : typeof (VObj []) <> "function") by discriminate.
  split; [reflexivity|]. split; [reflexivity|]. split; [exact Hty|].
  exact (producer_is_its_product scenario_code scenario_prototype "go" (VObj [])
                                 "data" eq_refl eq_refl Hty).
Defined.

(** X18: a producer that throws makes the normalization throw the same
    exception, and a producer that returns a falsy value ([undefined],
    [null], [0], ...) or a function makes it fail with
    [ValidationError: <groupName> doesn't resolve to an object]. *)
Theorem producer_without_object :
  forall code proto f g,
    (forall e, call0 (code f) = Throw e ->
               setProp code proto (VFun f) g = Throw e)
    /\ (forall r, call0 (code f) = Normal r ->
                  truthy r = false \/ typeof r = "function" ->
                  setProp code proto (VFun f) g
                  = Throw (Error ("ValidationError: " ++ g
                                  ++ " doesn't resolve to an object"))).
Proof.
  intros code proto f g. unfold setProp.
  rewrite (candidate_of_function code (VFun f) eq_refl). cbn [call_producer].
  split.
  - now intros e ->.
  - intros r -> [Hr | Hty].
    + now rewrite Hr.
    + destruct (typeof_function r Hty) as [f' ->]. reflexivity.
Qed.

Lemma producer_without_object_witness :
  call0 (scenario_code "noop") = Normal VUndefined
  /\ setProp scenario_code scenario_prototype (VFun "noop") "data"
     = Throw (Error ("ValidationError: " ++ "data" ++ " doesn't resolve to an object")).
Proof.
  split; [reflexivity|].
  exact (proj2 (producer_without_object scenario_code scenario_prototype
                                        "noop" "data")
               VUndefined eq_refl (or_introl eq_refl)).
Defined.

(** X19: when a registered mutation throws, [commit] throws the same
    exception, keeps what the mutation had done to the data, and makes no
    scan: the exception is the mutation's even when a reserved key was
    left behind. *)
Theorem commit_of_throwing_mutation :
  forall code proto st name f v d e,
    own (mutations st) name = Some (VFun f) ->
    call_state (code f) (data st) v = (d, Throw e) ->
    handle_commit code proto st name v = (set_data st d, Throw e).
Proof.
  intros code proto st name f v d e Hown Hcall.
  destruct (registered_mutation code proto st name f v Hown) as [Ht Hm].
  rewrite handle_commit_is_commit.
  rewrite (commit_runs code proto st name v d (Throw e) Ht); [reflexivity|].
  now rewrite Hm.
Qed.

Lemma commit_of_throwing_mutation_witness :
  own (mutations store_fail) "fail" = Some (VFun "fail")
  /\ call_state (failing_code "fail") (data store_fail) (VNum 7)
     = ([("a", VNum 1); ("data", VNum 7)], Throw (Thrown (VNum 7)))
  /\ handle_commit failing_code scenario_prototype store_fail "fail" (VNum 7)
     = (set_data store_fail [("a", VNum 1); ("data", VNum 7)],
        Throw (Thrown (VNum 7))).
Proof.
  split; [reflexivity|]. split; [reflexivity|].
  exact (commit_of_throwing_mutation
           failing_code scenario_prototype store_fail "fail" "fail" (VNum 7)
           [("a", VNum 1); ("data", VNum 7)] (Thrown (VNum 7)) eq_refl eq_refl).
Defined.
